(** * ImageBuffer: a shallow embedding of source/image/ImageBuffer.cpp

    The buffer owns a flat array of 32-bit pixels for [frames] images of
    the same [width] and [height].  This development embeds the buffer
    operations ([Clear], [Allocate], [Begin], [ShrinkToHalfSize], [Read],
    [Premultiply]) and proves the properties the specification states
    about them.

    Conventions of the embedding.
    - A C++ [int] is a [Z] in the range of 32 bits; [/] on [int] is
      [Z.quot] (truncation toward zero).  The products that size the array
      in [Allocate] and that [ShrinkToHalfSize] uses as loop bound and as
      byte offsets are checked against that range: signed overflow is
      undefined behaviour, [Undefined].
    - [uint32_t]/[uint64_t] values are non-negative [Z]; masks and shifts
      are [Z.land], [Z.lor], [Z.shiftl], [Z.shiftr]; the narrowing
      [static_cast<uint32_t>] is a [Z.land] with [0xFFFFFFFF].
    - The pixel array is a [list Z] of 32-bit words, [None] for [nullptr].
      An [unsigned char *] into it addresses byte [i mod 4] of word
      [i / 4] (little-endian, as on the platforms the program targets).
    - An access outside the array is undefined behaviour: [Undefined].
      [new] with a negative count throws; the heap satisfies every
      request whose count is an [int].
      A fatal libjpeg error ends the process: [Exited].
    - Calls to the external [Logger] do not affect the buffer or the
      control flow and are left out. *)

From Stdlib Require Import ZArith Lia Bool List String.
From stdpp Require Import base list strings gmap.

Local Open Scope Z_scope.

(** ** Bytes of a 32-bit pixel *)

(** Byte [k] of a packed pixel: [(p >> 8k) & 0xFF].  [Premultiply] names
    byte 3 alpha, byte 2 red, byte 1 green and byte 0 blue. *)
Definition channel (k : Z) (p : Z) : Z := Z.land (Z.shiftr p (8 * k)) 0xFF.

(** Storing byte [v] at position [k] of a word, the other bytes kept. *)
Definition set_channel (k : Z) (v : Z) (p : Z) : Z :=
  Z.lor (Z.land p (Z.lnot (Z.shiftl 0xFF (8 * k)))) (Z.shiftl (Z.land v 0xFF) (8 * k)).

(** ** Blending modes and the per-pixel transform of [Premultiply] *)

(** Modelled from the spec: image/BlendingMode.h is not among the sources;
    the enumeration has a default (straight alpha) mode and the three
    explicit modes that ImageBuffer.cpp names. *)
Inductive BlendingMode : Set :=
  | ALPHA
  | PREMULTIPLIED_ALPHA
  | ADDITIVE
  | HALF_ADDITIVE.

#[global] Instance BlendingMode_eq_dec : EqDecision BlendingMode.
Proof. solve_decision. Defined.

(** Arithmetic on [uint64_t] wraps modulo 2^64. *)
Definition u64 (z : Z) : Z := z mod 2 ^ 64.

(** The body of the inner loop of [Premultiply], from the pixel read
    through [*it] to the value stored back. *)
Definition premultiply_pixel (blend : BlendingMode) (pixel : Z) : Z :=
  let value := pixel in
  let alpha := Z.shiftr (Z.land value 0xFF000000) 24 in
  let red := Z.land (u64 (Z.land value 0xFF0000 * alpha) / 255) 0xFF0000 in
  let green := Z.land (u64 (Z.land value 0xFF00 * alpha) / 255) 0xFF00 in
  let blue := Z.land (u64 (Z.land value 0xFF * alpha) / 255) 0xFF in
  let value := Z.lor (Z.lor red green) blue in
  let alpha := if decide (blend = HALF_ADDITIVE) then Z.shiftr alpha 2 else alpha in
  let value := if decide (blend <> ADDITIVE) then Z.lor value (Z.shiftl alpha 24) else value in
  Z.land value 0xFFFFFFFF.

(** The packed colour part [red | green | blue] of the loop body. *)
Definition premultiplied_colour (value : Z) : Z :=
  let a := channel 3 value in
  Z.lor (Z.lor (Z.shiftl (channel 2 value * a / 255) 16)
               (Z.shiftl (channel 1 value * a / 255) 8))
        (Z.shiftl (channel 0 value * a / 255) 0).

(** ** Results of a call *)

Inductive exn : Set :=
  | bad_array_new_length   (* derived from std::bad_alloc *)
  | runtime_error.

(** A call returns a value, leaves by an exception, ends the process, or
    has undefined behaviour. *)
Inductive outcome (A : Type) : Type :=
  | Returned (a : A)
  | Thrown (e : exn)
  | Exited
  | Undefined.
Arguments Returned {A} a.
Arguments Thrown {A} e.
Arguments Exited {A}.
Arguments Undefined {A}.

#[global] Instance outcome_bind : MBind outcome := fun A B f m =>
  match m with
  | Returned a => f a
  | Thrown e => Thrown e
  | Exited => Exited
  | Undefined => Undefined
  end.

(** ** The pixel array *)

(** Element [i] of the array behind a pointer, [None] outside of it. *)
Definition zlookup (m : list Z) (i : Z) : option Z :=
  if decide (0 <= i) then m !! Z.to_nat i else None.

Definition zinsert (i v : Z) (m : list Z) : list Z := <[Z.to_nat i := v]> m.

(** [p[i]] read and [p[i] = v] through a [uint32_t *]. *)
Definition load (m : list Z) (i : Z) : outcome Z :=
  match zlookup m i with
  | Some v => Returned v
  | None => Undefined
  end.

Definition store (m : list Z) (i v : Z) : outcome (list Z) :=
  match zlookup m i with
  | Some _ => Returned (zinsert i v m)
  | None => Undefined
  end.

(** The same array through an [unsigned char *]: byte [i] is byte
    [i mod 4] of word [i / 4]. *)
Definition zlookup8 (m : list Z) (i : Z) : option Z :=
  channel (i mod 4) <$> zlookup m (i / 4).

Definition load8 (m : list Z) (i : Z) : outcome Z :=
  match zlookup8 m i with
  | Some v => Returned v
  | None => Undefined
  end.

Definition store8 (m : list Z) (i v : Z) : outcome (list Z) :=
  p ← load m (i / 4);
  store m (i / 4) (set_channel (i mod 4) v p).

Definition u32 (z : Z) : Z := z mod 2 ^ 32.

(** Arithmetic on [int] (32 bits, two's complement range): a result
    outside the range is signed overflow, which is undefined behaviour. *)
Definition INT_MAX : Z := 2147483647.
Definition INT_MIN : Z := -2147483648.

Definition int_result (z : Z) : outcome Z :=
  if (INT_MIN <=? z) && (z <=? INT_MAX) then Returned z else Undefined.

Definition int_mul (a b : Z) : outcome Z := int_result (a * b).
Definition int_add (a b : Z) : outcome Z := int_result (a + b).

(** The array a pointer refers to; nothing can be accessed through
    [nullptr]. *)
Definition mem (p : option (list Z)) : list Z := default [] p.

(** ** The buffer *)

Record ImageBuffer : Type := mkImageBuffer {
  width : Z;
  height : Z;
  frames : Z;
  pixels : option (list Z)
}.

(** The constructor [ImageBuffer::ImageBuffer(int frames)]. *)
Definition ImageBuffer_new (frames : Z) : ImageBuffer :=
  {| width := 0; height := 0; frames := frames; pixels := None |}.

(** [ImageBuffer::Clear]: "Set the number of frames.  This must be called
    before allocating." *)
Definition Clear (frames' : Z) (b : ImageBuffer) : ImageBuffer :=
  {| width := width b; height := height b; frames := frames'; pixels := None |}.

Definition Width (b : ImageBuffer) : Z := width b.
Definition Height (b : ImageBuffer) : Z := height b.
Definition Frames (b : ImageBuffer) : Z := frames b.
Definition Pixels (b : ImageBuffer) : option (list Z) := pixels b.

(** [ImageBuffer::Begin]: the offset from [pixels] of row [y] of a frame. *)
Definition Begin (y frame : Z) (b : ImageBuffer) : Z :=
  width b * (y + height b * frame).

(** The buffer after writes through its array pointer. *)
Definition with_pixels (b : ImageBuffer) (m : list Z) : ImageBuffer :=
  {| width := width b; height := height b; frames := frames b;
     pixels := (fun _ => m) <$> pixels b |}.

(** The pixel at column [x] of row [y] of a frame, [Begin(y, frame)[x]]. *)
Definition pixel (b : ImageBuffer) (x y frame : Z) : option Z :=
  zlookup (mem (pixels b)) (Begin y frame b + x).

(** A buffer in use: it holds storage for exactly [width * height * frames]
    pixels, all three positive. *)
Definition allocated (b : ImageBuffer) : bool :=
  match pixels b with
  | Some px =>
      (Z.of_nat (length px) =? width b * height b * frames b)
      && (0 <? width b) && (0 <? height b) && (0 <? frames b)
  | None => false
  end.

(** ** Files *)

(** Modelled from the spec: ImageFileData.h is not among the sources; the
    descriptor of a file carries its path, its extension (lower case, with
    the leading dot) and the blending mode, the three fields [Read] uses. *)
Record ImageFileData : Type := {
  path : string;
  extension : string;
  blendingMode : BlendingMode
}.

Definition PNG_EXTENSIONS : gset string := {[ ".png" ]}.
Definition JPG_EXTENSIONS : gset string := {[ ".jpg"; ".jpeg"; ".jpe" ]}.
Definition IMAGE_EXTENSIONS : gset string := PNG_EXTENSIONS ∪ JPG_EXTENSIONS.
Definition ImageExtensions : gset string := IMAGE_EXTENSIONS.

Definition contains (s : gset string) (x : string) : bool := bool_decide (x ∈ s).

(** What [Files::Open] and libpng deliver for a path: no stream or no
    reader; an error while reading the header; or the header dimensions
    and the RGBA image ([image x y] is the packed pixel of column [x] in
    scanline [y]), where [Some k] says that libpng reports an error after
    [k] scanlines. *)
Inductive PngFile : Type :=
  | PngUnreadable
  | PngBadHeader
  | PngImage (w h : Z) (image : Z -> Z -> Z) (error : option Z).

(** What [Files::Read] and libjpeg deliver: no data; a fatal error (the
    standard error manager ends the process); or the decoded image. *)
Inductive JpgFile : Type :=
  | JpgEmpty
  | JpgFatal
  | JpgImage (w h : Z) (image : Z -> Z -> Z).

(** ** Sample inputs *)

Definition sample_junk : nat -> Z := fun _ => 0xDEADBEEF.

(** A 2 by 2 buffer of one frame. *)
Definition sample_2x2 : ImageBuffer :=
  {| width := 2; height := 2; frames := 1;
     pixels := Some [0x80FF8040; 0xFF102030; 0x00FFFFFF; 0x40000010] |}.

(** A buffer one pixel wide. *)
Definition sample_1x4 : ImageBuffer :=
  {| width := 1; height := 4; frames := 1; pixels := Some [1; 2; 3; 4] |}.

(** Two frames of 2 by 3: frame 0 has a last row of 255s, frame 1 is all
    zero. *)
Definition sample_2x3x2 : ImageBuffer :=
  {| width := 2; height := 3; frames := 2;
     pixels := Some [0; 0; 0; 0; 255; 255;  0; 0; 0; 0; 0; 0] |}.

(** A 3 by 4 buffer as [Allocate(3, 4)] leaves it. *)
Definition sample_3x4 : ImageBuffer :=
  {| width := 3; height := 4; frames := 1;
     pixels := Some (map sample_junk (seq 0 12)) |}.

(** A file system with a 2 by 2 PNG, a 3 by 2 PNG and a 2 by 2 JPEG. *)
Definition sample_png (p : string) : PngFile :=
  if String.eqb p "small.png" then PngImage 2 2 (fun x y => 0x80000000 + 16 * x + y) None
  else if String.eqb p "wide.png" then PngImage 3 2 (fun x y => 0xFF000000 + x + y) None
  else PngUnreadable.

Definition sample_jpg (p : string) : JpgFile :=
  if String.eqb p "small.jpg" then JpgImage 2 2 (fun x y => 0xFF000000 + 16 * x + y)
  else JpgEmpty.

Definition small_png : ImageFileData :=
  {| path := "small.png"; extension := ".png"; blendingMode := ALPHA |}.
Definition wide_png : ImageFileData :=
  {| path := "wide.png"; extension := ".png"; blendingMode := ALPHA |}.
Definition small_gif : ImageFileData :=
  {| path := "small.gif"; extension := ".gif"; blendingMode := ALPHA |}.

Definition missing_png : ImageFileData :=
  {| path := "missing.png"; extension := ".png"; blendingMode := ALPHA |}.

(** A file system whose PNG files all have a header of width 0. *)
Definition zero_png (p : string) : PngFile := PngImage 0 5 (fun _ _ => 0) None.

(** Two frames of 2 by 3 in one colour. *)
Definition sample_uniform : ImageBuffer :=
  {| width := 2; height := 3; frames := 2; pixels := Some (repeat 0x80402010 12) |}.

(** Two buffers of width 3 that differ in the last column only. *)
Definition sample_3x2 : ImageBuffer :=
  {| width := 3; height := 2; frames := 1; pixels := Some [1; 2; 3; 4; 5; 6] |}.
Definition sample_3x2' : ImageBuffer :=
  {| width := 3; height := 2; frames := 1; pixels := Some [1; 2; 9; 4; 5; 8] |}.

(** Two frames of 4 by 2 with sixteen different pixels, 0x80402010 and up
    in steps of 2. *)
Definition sample_4x2x2 : ImageBuffer :=
  {| width := 4; height := 2; frames := 2;
     pixels := Some [2151686160; 2151686162; 2151686164; 2151686166; 2151686168; 2151686170; 2151686172; 2151686174; 2151686176; 2151686178; 2151686180; 2151686182; 2151686184; 2151686186; 2151686188; 2151686190] |}.

(** One frame of 32768 by 16386 pixels, all 0: 536936448 pixels, a count
    that is an [int], in 2147745792 bytes, a count that is not. *)
Definition sample_huge : ImageBuffer :=
  {| width := 32768; height := 16386; frames := 1;
     pixels := Some (repeat 0 (Z.to_nat 536936448)) |}.

(** The byte that the box filter computes from the bytes at offsets [a],
    [b], [a + 4] and [b + 4] of the source array. *)
Definition average4 (src : list Z) (a b : Z) : option Z :=
  a0 ← zlookup8 src a;
  b0 ← zlookup8 src b;
  a4 ← zlookup8 src (a + 4);
  b4 ← zlookup8 src (b + 4);
  Some ((a0 + b0 + a4 + b4 + 2) / 4).

Section ImageBuffer.

(** The indeterminate contents of a freshly allocated array. *)
Variable junk : nat -> Z.

(** [ImageBuffer::Allocate]: "This must only be called once for each image
    buffer; subsequent calls will be ignored." *)
Definition Allocate (width' height' : Z) (b : ImageBuffer) : outcome ImageBuffer :=
  if bool_decide (pixels b <> None) || (width' =? 0) || (height' =? 0) || (frames b =? 0)
  then Returned b
  else
    wh ← int_mul width' height';
    n ← int_mul wh (frames b);
    if n <? 0 then Thrown bad_array_new_length
    else Returned {| width := width'; height := height'; frames := frames b;
                     pixels := Some (map junk (seq 0 (Z.to_nat n))) |}.

(** *** ShrinkToHalfSize *)

(** The innermost loop, over the four channels of one output pixel. *)
Fixpoint shrink_channels (n : nat) (src : list Z) (aIt bIt out : Z) (dst : list Z)
  : outcome (Z * Z * Z * list Z) :=
  match n with
  | O => Returned (aIt, bIt, out, dst)
  | S n' =>
      a0 ← load8 src aIt;
      b0 ← load8 src bIt;
      a4 ← load8 src (aIt + 4);
      b4 ← load8 src (bIt + 4);
      dst' ← store8 dst out (u32 (a0 + b0 + a4 + b4 + 2) / 4);
      shrink_channels n' src (aIt + 1) (bIt + 1) (out + 1) dst'
  end.

(** The loop [for( ; aIt != aEnd; aIt += 4, bIt += 4)] over one output
    row.  Every pass reads the array at a higher address, so a loop that
    has not met [aEnd] after [fuel] passes, with [fuel] above the size of
    the array, has left the array ([shrink_pixels_bound] below). *)
Fixpoint shrink_pixels (fuel : nat) (src : list Z) (aIt aEnd bIt out : Z) (dst : list Z)
  : outcome (Z * list Z) :=
  if decide (aIt = aEnd) then Returned (out, dst)
  else
    match fuel with
    | O => Undefined
    | S fuel' =>
        '(aIt', bIt', out', dst') ← shrink_channels 4 src aIt bIt out dst;
        shrink_pixels fuel' src (aIt' + 4) aEnd (bIt' + 4) out' dst'
    end.

(** The loop [for(int y = 0; y < result.height * frames; ++y)], with [n]
    passes left.  The offsets [(4 * width) * (2 * y)], [4 * 2 * result.width]
    and [(4 * width) * (2 * y + 1)] are [int] expressions. *)
Fixpoint shrink_rows (n : nat) (y : Z) (src : list Z) (width rwidth : Z) (out : Z) (dst : list Z)
  : outcome (list Z) :=
  match n with
  | O => Returned dst
  | S n' =>
      width4 ← int_mul 4 width;
      y2 ← int_mul 2 y;
      aOff ← int_mul width4 y2;
      eight ← int_mul 4 2;
      rowBytes ← int_mul eight rwidth;
      y21 ← int_add y2 1;
      bOff ← int_mul width4 y21;
      let aIt := aOff in
      let aEnd := aIt + rowBytes in
      let bIt := bOff in
      '(out', dst') ← shrink_pixels (S (length src)) src aIt aEnd bIt out dst;
      shrink_rows n' (y + 1) src width rwidth out' dst'
  end.

Definition ShrinkToHalfSize (b : ImageBuffer) : outcome ImageBuffer :=
  result ← Allocate (width b ÷ 2) (height b ÷ 2) (ImageBuffer_new (frames b));
  let begin := mem (pixels b) in
  rows ← int_mul (height result) (frames b);
  dst ← shrink_rows (Z.to_nat rows) 0 begin
          (width b) (width result) 0 (mem (pixels result));
  (* swap(width, result.width); swap(height, result.height);
     swap(pixels, result.pixels); the old array dies with [result]. *)
  Returned (with_pixels {| width := width result; height := height result;
                           frames := frames b; pixels := pixels result |} dst).

(** *** Premultiply *)

(** The loop [for(uint32_t *end = it + buffer.Width(); it != end; ++it)],
    bounded like [shrink_pixels]. *)
Fixpoint premultiply_row (fuel : nat) (blend : BlendingMode) (it end_ : Z) (m : list Z)
  : outcome (list Z) :=
  if decide (it = end_) then Returned m
  else
    match fuel with
    | O => Undefined
    | S fuel' =>
        value ← load m it;
        m' ← store m it (premultiply_pixel blend value);
        premultiply_row fuel' blend (it + 1) end_ m'
    end.

(** The loop [for(int y = 0; y < buffer.Height(); ++y)], with [n] passes
    left. *)
Fixpoint premultiply_rows (n : nat) (y : Z) (blend : BlendingMode) (frame : Z)
    (buffer : ImageBuffer) (m : list Z) : outcome (list Z) :=
  match n with
  | O => Returned m
  | S n' =>
      let it := Begin y frame buffer in
      m' ← premultiply_row (S (length m)) blend it (it + Width buffer) m;
      premultiply_rows n' (y + 1) blend frame buffer m'
  end.

Definition Premultiply (buffer : ImageBuffer) (frame : Z) (blend : BlendingMode)
  : outcome ImageBuffer :=
  m ← premultiply_rows (Z.to_nat (Height buffer)) 0 blend frame buffer (mem (pixels buffer));
  Returned (with_pixels buffer m).

(** *** The decoders *)

Variable png_file : string -> PngFile.
Variable jpg_file : string -> JpgFile.

(** A decoding library writes one scanline of [n] pixels through the row
    pointer it was given. *)
Fixpoint write_pixels (n : nat) (x : Z) (line : Z -> Z) (row : Z) (m : list Z)
  : outcome (list Z) :=
  match n with
  | O => Returned m
  | S n' =>
      m' ← store m (row + x) (line x);
      write_pixels n' (x + 1) line row m'
  end.

(** [rows[y] = buffer.Begin(y, frame)] and the scanlines written there. *)
Fixpoint write_rows (n : nat) (y : Z) (image : Z -> Z -> Z) (w frame : Z)
    (buffer : ImageBuffer) (m : list Z) : outcome (list Z) :=
  match n with
  | O => Returned m
  | S n' =>
      m' ← write_pixels (Z.to_nat w) 0 (fun x => image x y) (Begin y frame buffer) m;
      write_rows n' (y + 1) image w frame buffer m'
  end.

(** The allocation step shared by both decoders: [bad_alloc] and the
    exceptions derived from it are caught and a [runtime_error] is thrown
    in their place. *)
Definition allocate_for_decode (w h : Z) (buffer : ImageBuffer) : outcome ImageBuffer :=
  match Allocate w h buffer with
  | Thrown bad_array_new_length => Thrown runtime_error
  | r => r
  end.

(** "Make sure this frame's dimensions are valid." *)
Definition invalid_dimensions (w h : Z) (buffer : ImageBuffer) : bool :=
  (w =? 0) || (h =? 0) || negb (w =? Width buffer) || negb (h =? Height buffer).

Definition ReadPNG (path : string) (buffer : ImageBuffer) (frame : Z)
  : outcome (bool * ImageBuffer) :=
  match png_file path with
  | PngUnreadable => Returned (false, buffer)
  | PngBadHeader => Returned (false, buffer)
  | PngImage w h image error =>
      buffer ← allocate_for_decode w h buffer;
      if invalid_dimensions w h buffer then Returned (false, buffer)
      else
        match error with
        | None =>
            m ← write_rows (Z.to_nat h) 0 image w frame buffer (mem (pixels buffer));
            Returned (true, with_pixels buffer m)
        | Some k =>
            m ← write_rows (Z.to_nat k) 0 image w frame buffer (mem (pixels buffer));
            Returned (false, with_pixels buffer m)
        end
  end.

Definition ReadJPG (path : string) (buffer : ImageBuffer) (frame : Z)
  : outcome (bool * ImageBuffer) :=
  match jpg_file path with
  | JpgEmpty => Returned (false, buffer)
  | JpgFatal => Exited
  | JpgImage w h image =>
      buffer ← allocate_for_decode w h buffer;
      if invalid_dimensions w h buffer then Returned (false, buffer)
      else
        m ← write_rows (Z.to_nat h) 0 image w frame buffer (mem (pixels buffer));
        Returned (true, with_pixels buffer m)
  end.

(** *** Read *)

Definition Read (data : ImageFileData) (frame : Z) (b : ImageBuffer)
  : outcome (bool * ImageBuffer) :=
  let isPNG := contains PNG_EXTENSIONS (extension data) in
  let isJPG := contains JPG_EXTENSIONS (extension data) in
  if negb isPNG && negb isJPG then Returned (false, b)
  else
    '(ok, b) ← (if isPNG then ReadPNG (path data) b frame else Returned (true, b));
    if isPNG && negb ok then Returned (false, b)
    else
      '(ok, b) ← (if isJPG then ReadJPG (path data) b frame else Returned (true, b));
      if isJPG && negb ok then Returned (false, b)
      else
        b ← (if decide (blendingMode data <> PREMULTIPLIED_ALPHA)
             then
               if isPNG || (isJPG && bool_decide (blendingMode data = ADDITIVE))
               then Premultiply b frame (blendingMode data)
               else Returned b
             else Returned b);
        Returned (true, b).

(** The decoder that [Read] selects by extension, and the dimensions it
    finds in the header of the file. *)
Definition decode (data : ImageFileData) (b : ImageBuffer) (frame : Z)
  : outcome (bool * ImageBuffer) :=
  if contains PNG_EXTENSIONS (extension data) then ReadPNG (path data) b frame
  else ReadJPG (path data) b frame.

Definition header (data : ImageFileData) : option (Z * Z) :=
  if contains PNG_EXTENSIONS (extension data) then
    match png_file (path data) with
    | PngImage w h _ _ => Some (w, h)
    | _ => None
    end
  else if contains JPG_EXTENSIONS (extension data) then
    match jpg_file (path data) with
    | JpgImage w h _ => Some (w, h)
    | _ => None
    end
  else None.

(** The rule of the specification for when a decoded frame is
    premultiplied: never for [PREMULTIPLIED_ALPHA]; otherwise always for
    a PNG and, for a JPEG, only in [ADDITIVE] mode. *)
Definition premultiplies (data : ImageFileData) : bool :=
  bool_decide (blendingMode data <> PREMULTIPLIED_ALPHA)
  && (contains PNG_EXTENSIONS (extension data)
      || (contains JPG_EXTENSIONS (extension data)
          && bool_decide (blendingMode data = ADDITIVE))).

(** The complete image that the decoder selected by the extension
    delivers: the dimensions and the pixels of a PNG that libpng reads
    without error, or of a JPEG. *)
Definition decoded (data : ImageFileData) : option (Z * Z * (Z -> Z -> Z)) :=
  if contains PNG_EXTENSIONS (extension data) then
    match png_file (path data) with
    | PngImage w h image None => Some (w, h, image)
    | _ => None
    end
  else if contains JPG_EXTENSIONS (extension data) then
    match jpg_file (path data) with
    | JpgImage w h image => Some (w, h, image)
    | _ => None
    end
  else None.
Lemma testbit_255 (i : Z) : Z.testbit 0xFF i = (0 <=? i) && (i <? 8).
Proof.
  change 0xFF with (Z.ones 8).
  destruct (Z.leb_spec 0 i), (Z.ltb_spec i 8); simpl.
  - apply Z.ones_spec_low; lia.
  - apply Z.ones_spec_high; lia.
  - apply Z.testbit_neg_r; lia.
  - apply Z.testbit_neg_r; lia.
Qed.

Lemma channel_testbit (k p i : Z) :
  0 <= k -> 0 <= i ->
  Z.testbit (channel k p) i = (i <? 8) && Z.testbit p (i + 8 * k).
Proof.
  intros Hk Hi. unfold channel.
  rewrite Z.land_spec, testbit_255, Z.shiftr_spec by lia.
  destruct (Z.leb_spec 0 i); [|lia]. simpl.
  apply andb_comm.
Qed.

Lemma channel_range (k p : Z) : 0 <= channel k p < 256.
Proof.
  unfold channel. change 0xFF with (Z.ones 8).
  rewrite Z.land_ones by lia. apply Z.mod_pos_bound. reflexivity.
Qed.

Lemma channel_div (k p : Z) : 0 <= k -> channel k p = (p / 2 ^ (8 * k)) mod 256.
Proof.
  intros Hk. unfold channel. change 0xFF with (Z.ones 8).
  rewrite Z.land_ones by lia. rewrite Z.shiftr_div_pow2 by lia. reflexivity.
Qed.

Lemma channel_small (v : Z) : 0 <= v < 256 -> channel 0 v = v.
Proof.
  intros Hv. rewrite channel_div by lia. simpl. rewrite Z.div_1_r.
  apply Z.mod_small. lia.
Qed.

Lemma channel_lor (k a b : Z) : channel k (Z.lor a b) = Z.lor (channel k a) (channel k b).
Proof.
  unfold channel. rewrite Z.shiftr_lor. apply Z.land_lor_distr_l.
Qed.

(** A byte-sized value placed at byte [j] is read back at [j] and reads as
    0 everywhere else. *)
Lemma channel_shiftl (k j v : Z) :
  0 <= k -> 0 <= j -> 0 <= v < 256 ->
  channel k (Z.shiftl v (8 * j)) = if k =? j then v else 0.
Proof.
  intros Hk Hj Hv.
  assert (Hhi : forall i, 8 <= i -> Z.testbit v i = false).
  { intros i Hi. rewrite <- (Z.mod_small v (2 ^ 8)) by (simpl; lia).
    apply Z.mod_pow2_bits_high. lia. }
  apply Z.bits_inj'. intros i Hi.
  rewrite channel_testbit by lia.
  destruct (Z.eqb_spec k j) as [->|Hne].
  - rewrite Z.shiftl_spec by lia. replace (i + 8 * j - 8 * j) with i by lia.
    destruct (Z.ltb_spec i 8); simpl; [reflexivity|].
    symmetry. apply Hhi. lia.
  - rewrite Z.testbit_0_l.
    destruct (Z.ltb_spec i 8); simpl; [|reflexivity].
    rewrite Z.shiftl_spec by lia.
    destruct (Z_lt_le_dec k j).
    + apply Z.testbit_neg_r. lia.
    + apply Hhi. lia.
Qed.

(** Masking with the byte mask at position [k] keeps exactly byte [k]. *)
Lemma land_mask (k n : Z) :
  0 <= k -> Z.land n (Z.shiftl 0xFF (8 * k)) = Z.shiftl (channel k n) (8 * k).
Proof.
  intros Hk. apply Z.bits_inj'. intros i Hi.
  rewrite Z.land_spec, !Z.shiftl_spec by lia.
  destruct (Z_lt_le_dec i (8 * k)).
  - rewrite (Z.testbit_neg_r 0xFF), (Z.testbit_neg_r (channel k n)) by lia.
    apply andb_false_r.
  - rewrite channel_testbit, testbit_255 by lia.
    replace (i - 8 * k + 8 * k) with i by lia.
    destruct (Z.leb_spec 0 (i - 8 * k)); [|lia]. simpl. apply andb_comm.
Qed.

Lemma channel_set_channel (j k v p : Z) :
  0 <= j -> 0 <= k ->
  channel j (set_channel k v p) = if j =? k then channel 0 v else channel j p.
Proof.
  intros Hj Hk. unfold set_channel. rewrite channel_lor.
  assert (Hv : 0 <= Z.land v 0xFF < 256).
  { pose proof (channel_range 0 v) as H. unfold channel in H.
    rewrite Z.mul_0_r, Z.shiftr_0_r in H. exact H. }
  rewrite channel_shiftl by lia.
  assert (Hc : channel j (Z.land p (Z.lnot (Z.shiftl 255 (8 * k))))
               = if j =? k then 0 else channel j p).
  { apply Z.bits_inj'. intros i Hi.
    rewrite channel_testbit by lia.
    rewrite Z.land_spec, Z.lnot_spec, Z.shiftl_spec, testbit_255 by lia.
    destruct (Z.eqb_spec j k) as [->|Hne].
    - rewrite Z.testbit_0_l. replace (i + 8 * k - 8 * k) with i by lia.
      destruct (Z.leb_spec 0 i); [|lia].
      destruct (Z.ltb_spec i 8); simpl; [apply andb_false_r | reflexivity].
    - rewrite channel_testbit by lia.
      destruct (Z.ltb_spec i 8); simpl; [|reflexivity].
      destruct (Z.leb_spec 0 (i + 8 * j - 8 * k)), (Z.ltb_spec (i + 8 * j - 8 * k) 8);
        simpl; try apply andb_true_r; lia. }
  rewrite Hc. destruct (Z.eqb_spec j k).
  - unfold channel. rewrite Z.mul_0_r, Z.shiftr_0_r. apply Z.lor_0_l.
  - apply Z.lor_0_r.
Qed.

Lemma channel_u32 (k x : Z) : 0 <= k < 4 -> channel k (Z.land x 0xFFFFFFFF) = channel k x.
Proof.
  intros Hk. apply Z.bits_inj'. intros i Hi.
  rewrite !channel_testbit by lia.
  destruct (Z.ltb_spec i 8); simpl; [|reflexivity].
  rewrite Z.land_spec. change 0xFFFFFFFF with (Z.ones 32).
  rewrite Z.ones_spec_low by lia. apply andb_true_r.
Qed.

Lemma alpha_channel (value : Z) : Z.shiftr (Z.land value 0xFF000000) 24 = channel 3 value.
Proof.
  change 0xFF000000 with (Z.shiftl 0xFF (8 * 3)).
  rewrite land_mask by lia. simpl (8 * 3).
  rewrite Z.shiftr_shiftl_l by lia. apply Z.shiftl_0_r.
Qed.

(** One colour channel: mask in place, scale by alpha, divide by 255 and
    mask again.  The result holds [c * a / 255] in byte [k] and nothing
    elsewhere. *)
Lemma scaled_channel (k value a : Z) :
  0 <= k < 3 -> 0 <= a < 256 ->
  Z.land (u64 (Z.land value (Z.shiftl 0xFF (8 * k)) * a) / 255) (Z.shiftl 0xFF (8 * k))
  = Z.shiftl (channel k value * a / 255) (8 * k).
Proof.
  intros Hk Ha.
  pose proof (channel_range k value) as Hc.
  set (c := channel k value) in *.
  rewrite !land_mask by lia. fold c. f_equal.
  rewrite Z.shiftl_mul_pow2 by lia.
  assert (Hp : 0 < 2 ^ (8 * k) <= 2 ^ 16).
  { split; [apply Z.pow_pos_nonneg; lia | apply Z.pow_le_mono_r; lia]. }
  assert (Hprod : 0 <= c * a <= 255 * 255) by nia.
  unfold u64. rewrite Z.mod_small.
  2:{ change (2 ^ 64) with (2 ^ 16 * 2 ^ 48). change (2 ^ 16) with 65536 in *.
      change (2 ^ 48) with 281474976710656. nia. }
  rewrite channel_div by lia.
  rewrite Z.div_div by lia.
  replace (c * 2 ^ (8 * k) * a) with (c * a * 2 ^ (8 * k)) by ring.
  rewrite Z.div_mul_cancel_r by lia.
  apply Z.mod_small. split.
  - apply Z.div_pos; lia.
  - apply Z.div_lt_upper_bound; lia.
Qed.

Lemma scaled_range (c a : Z) : 0 <= c < 256 -> 0 <= a < 256 -> 0 <= c * a / 255 < 256.
Proof.
  intros Hc Ha. split.
  - apply Z.div_pos; nia.
  - apply Z.div_lt_upper_bound; nia.
Qed.

Lemma premultiply_pixel_unfold (blend : BlendingMode) (value : Z) :
  premultiply_pixel blend value =
  let a := channel 3 value in
  let a' := if decide (blend = HALF_ADDITIVE) then Z.shiftr a 2 else a in
  Z.land (if decide (blend <> ADDITIVE)
          then Z.lor (premultiplied_colour value) (Z.shiftl a' 24)
          else premultiplied_colour value) 0xFFFFFFFF.
Proof.
  unfold premultiply_pixel, premultiplied_colour. cbv zeta.
  rewrite alpha_channel.
  pose proof (channel_range 3 value) as Ha.
  pose proof (scaled_channel 2 value _ ltac:(lia) Ha) as Hr.
  pose proof (scaled_channel 1 value _ ltac:(lia) Ha) as Hg.
  pose proof (scaled_channel 0 value _ ltac:(lia) Ha) as Hb.
  change (Z.shiftl 0xFF (8 * 2)) with 0xFF0000 in Hr.
  change (Z.shiftl 0xFF (8 * 1)) with 0xFF00 in Hg.
  change (Z.shiftl 0xFF (8 * 0)) with 0xFF in Hb.
  rewrite Hr, Hg, Hb. reflexivity.
Qed.

Lemma channel_colour (k value : Z) :
  0 <= k < 4 ->
  channel k (premultiplied_colour value)
  = if k =? 3 then 0 else channel k value * channel 3 value / 255.
Proof.
  intros Hk. unfold premultiplied_colour. cbv zeta.
  pose proof (channel_range 3 value) as Ha.
  pose proof (scaled_range _ _ (channel_range 2 value) Ha).
  pose proof (scaled_range _ _ (channel_range 1 value) Ha).
  pose proof (scaled_range _ _ (channel_range 0 value) Ha).
  rewrite !channel_lor.
  change 16 with (8 * 2). change 8 with (8 * 1) at 2. change 0 with (8 * 0) at 2.
  rewrite !channel_shiftl by lia.
  assert (k = 0 \/ k = 1 \/ k = 2 \/ k = 3) as [->|[->|[->| ->]]] by lia;
    simpl; rewrite ?Z.lor_0_r, ?Z.lor_0_l; reflexivity.
Qed.

(** The four bytes of the pixel that [Premultiply] stores. *)
Lemma channel_premultiply_colour (blend : BlendingMode) (k value : Z) :
  0 <= k < 3 ->
  channel k (premultiply_pixel blend value) = channel k value * channel 3 value / 255.
Proof.
  intros Hk. rewrite premultiply_pixel_unfold. cbv zeta.
  rewrite channel_u32 by lia.
  assert (Ha' : 0 <= (if decide (blend = HALF_ADDITIVE)
                      then Z.shiftr (channel 3 value) 2 else channel 3 value) < 256).
  { pose proof (channel_range 3 value). destruct (decide _); [|lia].
    rewrite Z.shiftr_div_pow2 by lia. change (2 ^ 2) with 4.
    split; [apply Z.div_pos; lia | apply Z.div_lt_upper_bound; lia]. }
  destruct (decide (blend <> ADDITIVE)).
  - rewrite channel_lor, channel_colour by lia.
    change 24 with (8 * 3). rewrite channel_shiftl by lia.
    destruct (Z.eqb_spec k 3); [lia|]. apply Z.lor_0_r.
  - rewrite channel_colour by lia. destruct (Z.eqb_spec k 3); [lia|reflexivity].
Qed.

Lemma channel_premultiply_alpha (blend : BlendingMode) (value : Z) :
  channel 3 (premultiply_pixel blend value)
  = match blend with
    | ADDITIVE => 0
    | HALF_ADDITIVE => channel 3 value / 4
    | _ => channel 3 value
    end.
Proof.
  rewrite premultiply_pixel_unfold. cbv zeta.
  rewrite channel_u32 by lia.
  pose proof (channel_range 3 value) as Ha.
  assert (Hq : 0 <= channel 3 value / 4 < 256).
  { split; [apply Z.div_pos; lia | apply Z.div_lt_upper_bound; lia]. }
  destruct blend; simpl;
    rewrite ?channel_lor, channel_colour by lia; simpl;
    change 24 with (8 * 3); rewrite ?Z.shiftr_div_pow2 by lia;
    change (2 ^ 2) with 4; rewrite ?channel_shiftl by lia; reflexivity.
Qed.

Lemma zlookup_Some (m : list Z) (i : Z) :
  0 <= i < Z.of_nat (length m) -> exists v, zlookup m i = Some v.
Proof.
  intros Hi. unfold zlookup. destruct (decide (0 <= i)); [|lia].
  destruct (lookup_lt_is_Some_2 m (Z.to_nat i)) as [v Hv]; [lia|]. eauto.
Qed.

Lemma zlookup_range (m : list Z) (i v : Z) :
  zlookup m i = Some v -> 0 <= i < Z.of_nat (length m).
Proof.
  unfold zlookup. destruct (decide (0 <= i)); [|discriminate].
  intros Hv. apply lookup_lt_Some in Hv. lia.
Qed.

Lemma zlookup_None (m : list Z) (i : Z) :
  ~ 0 <= i < Z.of_nat (length m) -> zlookup m i = None.
Proof.
  intros Hi. destruct (zlookup m i) eqn:E; [|reflexivity].
  apply zlookup_range in E. contradiction.
Qed.

Lemma length_zinsert (m : list Z) (i v : Z) : length (zinsert i v m) = length m.
Proof. apply length_insert. Qed.

Lemma zlookup_zinsert (m : list Z) (i j v : Z) :
  0 <= i < Z.of_nat (length m) ->
  zlookup (zinsert i v m) j = if decide (j = i) then Some v else zlookup m j.
Proof.
  intros Hi. unfold zlookup, zinsert.
  destruct (decide (j = i)) as [->|Hne].
  - destruct (decide (0 <= i)); [|lia]. apply list_lookup_insert_eq. lia.
  - destruct (decide (0 <= j)); [|reflexivity].
    apply list_lookup_insert_ne. lia.
Qed.

Lemma zlookup8_word (m : list Z) (q c : Z) :
  0 <= c < 4 -> zlookup8 m (4 * q + c) = channel c <$> zlookup m q.
Proof.
  intros Hc. unfold zlookup8.
  replace ((4 * q + c) / 4) with q by (apply Z.div_unique with c; lia).
  replace ((4 * q + c) mod 4) with c by (apply Z.mod_unique with q; lia).
  reflexivity.
Qed.

Lemma zlookup8_Some (m : list Z) (i : Z) :
  0 <= i < 4 * Z.of_nat (length m) -> exists v, zlookup8 m i = Some v /\ 0 <= v < 256.
Proof.
  intros Hi. unfold zlookup8.
  destruct (zlookup_Some m (i / 4)) as [p Hp].
  { split; [apply Z.div_pos; lia | apply Z.div_lt_upper_bound; lia]. }
  rewrite Hp. simpl. eexists. split; [reflexivity | apply channel_range].
Qed.

(** A byte store changes the addressed byte and no other. *)
Lemma store8_spec (m : list Z) (i v : Z) :
  0 <= i < 4 * Z.of_nat (length m) -> 0 <= v < 256 ->
  exists m', store8 m i v = Returned m' /\ length m' = length m /\
    forall j, zlookup8 m' j = if decide (j = i) then Some v else zlookup8 m j.
Proof.
  intros Hi Hv.
  assert (Hq : 0 <= i / 4 < Z.of_nat (length m)).
  { split; [apply Z.div_pos; lia | apply Z.div_lt_upper_bound; lia]. }
  destruct (zlookup_Some m (i / 4) Hq) as [p Hp].
  unfold store8, load, store. rewrite Hp. simpl. rewrite ?Hp.
  eexists. split; [reflexivity|]. split; [apply length_zinsert|].
  intros j. unfold zlookup8. rewrite zlookup_zinsert by lia.
  assert (Hmi : 0 <= i mod 4 < 4) by (apply Z.mod_pos_bound; lia).
  assert (Hmj : 0 <= j mod 4 < 4) by (apply Z.mod_pos_bound; lia).
  destruct (decide (j / 4 = i / 4)) as [Heq|Hne].
  - simpl. rewrite channel_set_channel by lia.
    destruct (decide (j = i)) as [->|Hji].
    + rewrite Z.eqb_refl, channel_small by lia. reflexivity.
    + destruct (Z.eqb_spec (j mod 4) (i mod 4)) as [Hm|Hm].
      * exfalso. apply Hji.
        rewrite (Z.div_mod j 4), (Z.div_mod i 4) by lia. lia.
      * rewrite Heq, Hp. reflexivity.
  - destruct (decide (j = i)) as [->|]; [contradiction|reflexivity].
Qed.


(** ** Arithmetic on int *)

Lemma int_result_in (z : Z) : INT_MIN <= z <= INT_MAX -> int_result z = Returned z.
Proof.
  intros [Hlo Hhi]. unfold int_result.
  destruct (Z.leb_spec INT_MIN z); [|lia]. destruct (Z.leb_spec z INT_MAX); [|lia].
  reflexivity.
Qed.

Lemma int_result_out (z : Z) : z < INT_MIN \/ INT_MAX < z -> int_result z = Undefined.
Proof.
  intros H. unfold int_result.
  destruct (Z.leb_spec INT_MIN z); [|reflexivity].
  destruct (Z.leb_spec z INT_MAX); [lia|reflexivity].
Qed.

Lemma int_result_cases (z : Z) :
  (INT_MIN <= z <= INT_MAX /\ int_result z = Returned z) \/ int_result z = Undefined.
Proof.
  destruct (Z_le_dec INT_MIN z); [destruct (Z_le_dec z INT_MAX)|].
  - left. split; [lia|]. apply int_result_in. lia.
  - right. apply int_result_out. lia.
  - right. apply int_result_out. lia.
Qed.

Lemma int_mul_in (a b : Z) : INT_MIN <= a * b <= INT_MAX -> int_mul a b = Returned (a * b).
Proof. apply int_result_in. Qed.

Lemma int_add_in (a b : Z) : INT_MIN <= a + b <= INT_MAX -> int_add a b = Returned (a + b).
Proof. apply int_result_in. Qed.

(** ** Allocation and clearing *)

Lemma allocated_inv (b : ImageBuffer) :
  allocated b = true ->
  exists px, pixels b = Some px
    /\ Z.of_nat (length px) = width b * height b * frames b
    /\ 0 < width b /\ 0 < height b /\ 0 < frames b.
Proof.
  unfold allocated. destruct (pixels b) as [px|]; [|discriminate].
  rewrite !andb_true_iff, Z.eqb_eq, !Z.ltb_lt. intros [[[? ?] ?] ?]. eauto 10.
Qed.

Lemma Allocate_noop (w h : Z) (b : ImageBuffer) :
  pixels b <> None \/ w = 0 \/ h = 0 \/ frames b = 0 -> Allocate w h b = Returned b.
Proof.
  intros H. unfold Allocate.
  destruct (bool_decide (pixels b <> None)) eqn:Ep; [reflexivity|].
  apply bool_decide_eq_false in Ep.
  destruct (Z.eqb_spec w 0); [reflexivity|].
  destruct (Z.eqb_spec h 0); [reflexivity|].
  destruct (Z.eqb_spec (frames b) 0); [reflexivity|].
  tauto.
Qed.

Lemma product_bounds (w h f : Z) :
  0 < w -> 0 < h -> 0 < f -> w * h * f <= INT_MAX ->
  INT_MIN <= w * h <= INT_MAX /\ INT_MIN <= w * h * f <= INT_MAX.
Proof. intros Hw Hh Hf Hmax. unfold INT_MIN, INT_MAX in *. nia. Qed.

(** The first allocation of an unallocated buffer, when the number of
    pixels is an [int]. *)
Lemma Allocate_unallocated (w h : Z) (b : ImageBuffer) :
  pixels b = None -> 0 < w -> 0 < h -> 0 < frames b ->
  w * h * frames b <= INT_MAX ->
  Allocate w h b
  = Returned {| width := w; height := h; frames := frames b;
                pixels := Some (map junk (seq 0 (Z.to_nat (w * h * frames b)))) |}.
Proof.
  intros Hnone Hw Hh Hf Hmax. unfold Allocate. rewrite Hnone.
  rewrite bool_decide_eq_false_2 by (intros H; apply H; reflexivity).
  destruct (Z.eqb_spec w 0); [lia|]. destruct (Z.eqb_spec h 0); [lia|].
  destruct (Z.eqb_spec (frames b) 0); [lia|]. cbn [orb].
  destruct (product_bounds w h (frames b) Hw Hh Hf Hmax) as [Hwh Hn].
  rewrite int_mul_in by exact Hwh. cbn [mbind outcome_bind].
  rewrite int_mul_in by exact Hn. cbn [mbind outcome_bind].
  destruct (Z.ltb_spec (w * h * frames b) 0); [nia|]. reflexivity.
Qed.

Lemma Allocate_fresh (w h f : Z) :
  0 < w -> 0 < h -> 0 < f -> w * h * f <= INT_MAX ->
  Allocate w h (ImageBuffer_new f)
  = Returned {| width := w; height := h; frames := f;
                pixels := Some (map junk (seq 0 (Z.to_nat (w * h * f)))) |}.
Proof. intros Hw Hh Hf Hmax. apply (Allocate_unallocated w h (ImageBuffer_new f)); auto. Qed.

Lemma allocated_fresh (w h f : Z) :
  0 < w -> 0 < h -> 0 < f ->
  allocated {| width := w; height := h; frames := f;
               pixels := Some (map junk (seq 0 (Z.to_nat (w * h * f)))) |} = true.
Proof.
  intros Hw Hh Hf. unfold allocated. simpl.
  rewrite length_map, length_seq, Z2Nat.id by nia.
  rewrite Z.eqb_refl. simpl.
  rewrite !andb_true_iff, !Z.ltb_lt. auto.
Qed.


(** C7, as amended.  [Width()] and [Height()] are 0 on a buffer that has
    never been allocated, also after a [Clear] of such a buffer; [Clear]
    releases the storage and sets the frame count, and leaves [Width()]
    and [Height()] as they were. *)
Theorem Clear_keeps_dimensions :
  (forall f, Width (ImageBuffer_new f) = 0 /\ Height (ImageBuffer_new f) = 0)
  /\ (forall f f', Width (Clear f' (ImageBuffer_new f)) = 0
                   /\ Height (Clear f' (ImageBuffer_new f)) = 0)
  /\ (forall b f', Pixels (Clear f' b) = None /\ Frames (Clear f' b) = f'
                   /\ Width (Clear f' b) = Width b /\ Height (Clear f' b) = Height b).
Proof. repeat split. Qed.

(** ** The dispatcher *)

Lemma contains_png (x : string) : contains PNG_EXTENSIONS x = true <-> x = ".png".
Proof. unfold contains, PNG_EXTENSIONS. rewrite bool_decide_eq_true. set_solver. Qed.

Lemma contains_jpg (x : string) :
  contains JPG_EXTENSIONS x = true <-> x = ".jpg" \/ x = ".jpeg" \/ x = ".jpe".
Proof.
  unfold contains, JPG_EXTENSIONS. rewrite bool_decide_eq_true.
  rewrite !elem_of_union, !elem_of_singleton. tauto.
Qed.

Lemma png_not_jpg (x : string) :
  contains PNG_EXTENSIONS x = true -> contains JPG_EXTENSIONS x = false.
Proof.
  rewrite contains_png. intros ->.
  destruct (contains JPG_EXTENSIONS ".png") eqn:E; [|reflexivity].
  apply contains_jpg in E. destruct E as [E|[E|E]]; discriminate.
Qed.

(** C9.  When the extension is none of .png, .jpg, .jpeg and .jpe, [Read]
    returns false and the buffer is the one it was given: nothing is
    allocated or written, and [Width()], [Height()] and [Frames()] are
    unchanged. *)
Theorem Read_unsupported_extension (data : ImageFileData) (frame : Z) (b : ImageBuffer) :
  extension data <> ".png" -> extension data <> ".jpg" ->
  extension data <> ".jpeg" -> extension data <> ".jpe" ->
  Read data frame b = Returned (false, b).
Proof.
  intros H1 H2 H3 H4. unfold Read. cbv zeta.
  destruct (contains PNG_EXTENSIONS (extension data)) eqn:Ep.
  { apply contains_png in Ep. contradiction. }
  destruct (contains JPG_EXTENSIONS (extension data)) eqn:Ej.
  { apply contains_jpg in Ej. tauto. }
  reflexivity.
Qed.

Lemma mismatch_invalid (w h : Z) (b : ImageBuffer) :
  w <> Width b \/ h <> Height b -> invalid_dimensions w h b = true.
Proof.
  intros H. unfold invalid_dimensions. rewrite !orb_true_iff, !negb_true_iff, !Z.eqb_neq.
  tauto.
Qed.

Lemma allocate_for_decode_noop (w h : Z) (b : ImageBuffer) :
  pixels b <> None -> allocate_for_decode w h b = Returned b.
Proof. intros H. unfold allocate_for_decode. rewrite Allocate_noop by auto. reflexivity. Qed.

Lemma ReadPNG_mismatch (p : string) (b : ImageBuffer) (frame w h : Z) image error :
  pixels b <> None -> png_file p = PngImage w h image error ->
  w <> Width b \/ h <> Height b ->
  ReadPNG p b frame = Returned (false, b).
Proof.
  intros Hb Hf Hne. unfold ReadPNG. rewrite Hf, allocate_for_decode_noop by assumption.
  simpl. rewrite mismatch_invalid by assumption. reflexivity.
Qed.

Lemma ReadJPG_mismatch (p : string) (b : ImageBuffer) (frame w h : Z) image :
  pixels b <> None -> jpg_file p = JpgImage w h image ->
  w <> Width b \/ h <> Height b ->
  ReadJPG p b frame = Returned (false, b).
Proof.
  intros Hb Hf Hne. unfold ReadJPG. rewrite Hf, allocate_for_decode_noop by assumption.
  simpl. rewrite mismatch_invalid by assumption. reflexivity.
Qed.

(** C2.  On a buffer whose dimensions are fixed (it holds storage), a PNG
    or JPEG file whose header width or height differs from the buffer's
    makes [Read] return false with the buffer exactly as it was: no pixel
    of the frame is written and the earlier frames are unchanged. *)
Theorem Read_dimension_mismatch (data : ImageFileData) (frame : Z) (b : ImageBuffer) (w h : Z) :
  Pixels b <> None ->
  header data = Some (w, h) ->
  w <> Width b \/ h <> Height b ->
  Read data frame b = Returned (false, b).
Proof.
  intros Hb Hh Hne. unfold header in Hh. unfold Read. cbv zeta.
  destruct (contains PNG_EXTENSIONS (extension data)) eqn:Ep.
  - rewrite (png_not_jpg _ Ep).
    destruct (png_file (path data)) as [| |w' h' image error] eqn:Ef; try discriminate.
    injection Hh as -> ->.
    rewrite (ReadPNG_mismatch _ _ _ _ _ _ _ Hb Ef Hne). reflexivity.
  - destruct (contains JPG_EXTENSIONS (extension data)) eqn:Ej; [|discriminate].
    destruct (jpg_file (path data)) as [| |w' h' image] eqn:Ef; try discriminate.
    injection Hh as -> ->.
    cbn -[ReadJPG]. rewrite (ReadJPG_mismatch _ _ _ _ _ _ Hb Ef Hne). reflexivity.
Qed.

(** C3.  After a successful decode, [Read] returns what [Premultiply]
    makes of the decoded frame exactly when the blending mode is not
    [PREMULTIPLIED_ALPHA] and the file is a PNG, or a JPEG in [ADDITIVE]
    mode; in every other case it returns the decoded buffer untouched. *)
Theorem Read_premultiplies (data : ImageFileData) (frame : Z) (b b1 : ImageBuffer) :
  contains IMAGE_EXTENSIONS (extension data) = true ->
  decode data b frame = Returned (true, b1) ->
  Read data frame b =
    if premultiplies data
    then b2 ← Premultiply b1 frame (blendingMode data); Returned (true, b2)
    else Returned (true, b1).
Proof.
  intros Hext Hdec. unfold decode in Hdec. unfold Read, premultiplies. cbv zeta.
  assert (Hor : contains PNG_EXTENSIONS (extension data) = true
                \/ contains JPG_EXTENSIONS (extension data) = true).
  { unfold contains, IMAGE_EXTENSIONS in *.
    rewrite bool_decide_eq_true in Hext. rewrite !bool_decide_eq_true. set_solver. }
  destruct (contains PNG_EXTENSIONS (extension data)) eqn:Ep.
  - rewrite (png_not_jpg _ Ep), Hdec.
    destruct (blendingMode data); reflexivity.
  - destruct Hor as [Hor|Hor]; [discriminate|]. rewrite Hor.
    cbn -[ReadJPG Premultiply]. rewrite Hdec.
    destruct (blendingMode data); reflexivity.
Qed.

(** ** The pointer loops and their bound *)

(** The loops that run until a pointer meets its end are unrolled a
    bounded number of times.  The bound does not change what they
    compute: every pass accesses the array at a higher address, so with a
    bound above the size of the array a loop that has not met its end has
    left the array, which is undefined behaviour in any case. *)

Lemma load_outside (m : list Z) (i : Z) :
  i < 0 \/ Z.of_nat (length m) <= i -> load m i = Undefined.
Proof. intros H. unfold load. rewrite zlookup_None by lia. reflexivity. Qed.

Lemma load_inside (m : list Z) (i v : Z) :
  load m i = Returned v -> 0 <= i < Z.of_nat (length m).
Proof.
  unfold load. destruct (zlookup m i) eqn:E; [|discriminate].
  intros _. eapply zlookup_range, E.
Qed.

Lemma store_length (m m' : list Z) (i v : Z) :
  store m i v = Returned m' -> length m' = length m.
Proof.
  unfold store. destruct (zlookup m i); [|discriminate].
  intros [= <-]. apply length_zinsert.
Qed.

Lemma premultiply_row_fuel (blend : BlendingMode) (end_ : Z) (fuel1 : nat) :
  forall (fuel2 : nat) (it : Z) (m : list Z),
    it < 0 \/ Z.of_nat (length m) - it < Z.of_nat fuel1 ->
    it < 0 \/ Z.of_nat (length m) - it < Z.of_nat fuel2 ->
    premultiply_row fuel1 blend it end_ m = premultiply_row fuel2 blend it end_ m.
Proof.
  induction fuel1 as [|fuel1 IH]; intros fuel2 it m H1 H2.
  - destruct fuel2 as [|fuel2]; [reflexivity|]. cbn [premultiply_row].
    destruct (decide (it = end_)); [reflexivity|].
    rewrite load_outside by lia. reflexivity.
  - destruct fuel2 as [|fuel2]; cbn [premultiply_row];
      destruct (decide (it = end_)); try reflexivity.
    + rewrite load_outside by lia. reflexivity.
    + destruct (load m it) as [v| | |] eqn:Ev; try reflexivity.
      apply load_inside in Ev. cbn [mbind outcome_bind].
      destruct (store m it (premultiply_pixel blend v)) as [m'| | |] eqn:Em; try reflexivity.
      apply store_length in Em. cbn [mbind outcome_bind].
      apply IH; lia.
Qed.

Lemma load8_outside (m : list Z) (i : Z) :
  i < 0 \/ 4 * Z.of_nat (length m) <= i -> load8 m i = Undefined.
Proof.
  intros H. unfold load8, zlookup8. rewrite zlookup_None; [reflexivity|].
  intros [Hlo Hhi]. pose proof (Z.div_mod i 4). pose proof (Z.mod_pos_bound i 4). lia.
Qed.

Lemma load8_inside (m : list Z) (i v : Z) :
  load8 m i = Returned v -> 0 <= i < 4 * Z.of_nat (length m).
Proof.
  unfold load8, zlookup8. destruct (zlookup m (i / 4)) eqn:E; [|discriminate].
  intros _. apply zlookup_range in E.
  pose proof (Z.div_mod i 4). pose proof (Z.mod_pos_bound i 4). lia.
Qed.

(** A pass of the channel loop that returns has read the array at [aIt]
    and moved [aIt] on by the number of channels. *)
Lemma shrink_channels_returned (src : list Z) (n : nat) :
  forall (aIt bIt out : Z) (dst : list Z) aIt' bIt' out' dst',
    shrink_channels n src aIt bIt out dst = Returned (aIt', bIt', out', dst') ->
    aIt' = aIt + Z.of_nat n
    /\ ((0 < n)%nat -> 0 <= aIt < 4 * Z.of_nat (length src)).
Proof.
  induction n as [|n IH]; intros aIt bIt out dst aIt' bIt' out' dst' H.
  - injection H as <- _ _ _. split; lia.
  - cbn [shrink_channels] in H.
    destruct (load8 src aIt) as [a0| | |] eqn:Ea0; try discriminate.
    destruct (load8 src bIt) as [b0| | |]; try discriminate.
    destruct (load8 src (aIt + 4)) as [a4| | |]; try discriminate.
    destruct (load8 src (bIt + 4)) as [b4| | |]; try discriminate.
    cbn [mbind outcome_bind] in H.
    destruct (store8 dst out _) as [dst1| | |]; try discriminate.
    cbn [mbind outcome_bind] in H.
    apply IH in H. destruct H as [-> _].
    apply load8_inside in Ea0. split; [lia|]. intros _. exact Ea0.
Qed.

Lemma shrink_pixels_fuel (src : list Z) (aEnd : Z) (fuel1 : nat) :
  forall (fuel2 : nat) (aIt bIt out : Z) (dst : list Z),
    aIt < 0 \/ 4 * Z.of_nat (length src) - aIt < 8 * Z.of_nat fuel1 ->
    aIt < 0 \/ 4 * Z.of_nat (length src) - aIt < 8 * Z.of_nat fuel2 ->
    shrink_pixels fuel1 src aIt aEnd bIt out dst
    = shrink_pixels fuel2 src aIt aEnd bIt out dst.
Proof.
  assert (Hfail : forall aIt bIt out dst,
             aIt < 0 \/ 4 * Z.of_nat (length src) <= aIt ->
             shrink_channels 4 src aIt bIt out dst = Undefined).
  { intros aIt bIt out dst H. cbn [shrink_channels].
    rewrite (load8_outside src aIt) by lia. reflexivity. }
  induction fuel1 as [|fuel1 IH]; intros fuel2 aIt bIt out dst H1 H2.
  - destruct fuel2 as [|fuel2]; [reflexivity|]. cbn [shrink_pixels].
    destruct (decide (aIt = aEnd)); [reflexivity|].
    rewrite Hfail by lia. reflexivity.
  - destruct fuel2 as [|fuel2]; cbn [shrink_pixels];
      destruct (decide (aIt = aEnd)); try reflexivity.
    + rewrite Hfail by lia. reflexivity.
    + destruct (shrink_channels 4 src aIt bIt out dst) as [[[[aIt' bIt'] out'] dst']| | |] eqn:Ech;
        try reflexivity.
      apply shrink_channels_returned in Ech. destruct Ech as [-> Hin].
      cbn [mbind outcome_bind]. apply IH; lia.
Qed.

(** Any bound above the size of the array gives the result of the bound
    that [premultiply_rows] and [shrink_rows] use. *)
Lemma premultiply_row_bound (blend : BlendingMode) (fuel : nat) (it end_ : Z) (m : list Z) :
  (length m < fuel)%nat ->
  premultiply_row fuel blend it end_ m = premultiply_row (S (length m)) blend it end_ m.
Proof.
  intros Hfuel. destruct (Z_lt_le_dec it 0).
  - apply premultiply_row_fuel; left; assumption.
  - apply premultiply_row_fuel; right; lia.
Qed.

Lemma shrink_pixels_bound (src : list Z) (fuel : nat) (aIt aEnd bIt out : Z) (dst : list Z) :
  (length src < fuel)%nat ->
  shrink_pixels fuel src aIt aEnd bIt out dst
  = shrink_pixels (S (length src)) src aIt aEnd bIt out dst.
Proof.
  intros Hfuel. destruct (Z_lt_le_dec aIt 0).
  - apply shrink_pixels_fuel; left; assumption.
  - apply shrink_pixels_fuel; right; lia.
Qed.

(** ** Premultiply on a buffer *)

Lemma premultiply_row_spec (blend : BlendingMode) (n : nat) :
  forall (fuel : nat) (it : Z) (m : list Z),
    (n <= fuel)%nat -> 0 <= it -> it + Z.of_nat n <= Z.of_nat (length m) ->
    exists m',
      premultiply_row fuel blend it (it + Z.of_nat n) m = Returned m'
      /\ length m' = length m
      /\ forall i, zlookup m' i =
           if decide (it <= i < it + Z.of_nat n)
           then premultiply_pixel blend <$> zlookup m i
           else zlookup m i.
Proof.
  induction n as [|n IH]; intros fuel it m Hfuel Hit Hlen.
  - exists m. replace (it + Z.of_nat 0) with it by lia.
    split; [|split; [reflexivity|]].
    + destruct fuel; simpl; destruct (decide (it = it)); congruence.
    + intros i. destruct (decide (it <= i < it)); [lia|reflexivity].
  - destruct fuel as [|fuel]; [lia|]. simpl premultiply_row.
    destruct (decide (it = it + Z.of_nat (S n))); [lia|].
    destruct (zlookup_Some m it) as [v Hv]; [lia|].
    unfold load, store. rewrite Hv. simpl. rewrite ?Hv.
    set (m1 := zinsert it (premultiply_pixel blend v) m).
    destruct (IH fuel (it + 1) m1) as (m' & Hrun & Hlen' & Hpt).
    { lia. } { lia. } { unfold m1. rewrite length_zinsert. lia. }
    exists m'. replace (it + Z.of_nat (S n)) with (it + 1 + Z.of_nat n) by lia.
    split; [exact Hrun|]. split; [rewrite Hlen'; apply length_zinsert|].
    intros i. rewrite Hpt. unfold m1. rewrite zlookup_zinsert by lia.
    destruct (decide (it + 1 <= i < it + 1 + Z.of_nat n)),
             (decide (it <= i < it + 1 + Z.of_nat n)),
             (decide (i = it)); try lia; subst; try reflexivity.
    rewrite Hv. reflexivity.
Qed.

Lemma Begin_succ (y frame : Z) (b : ImageBuffer) :
  Begin (y + 1) frame b = Begin y frame b + width b.
Proof. unfold Begin. ring. Qed.

Lemma premultiply_rows_spec (blend : BlendingMode) (frame : Z) (b : ImageBuffer) (n : nat) :
  forall (y : Z) (m : list Z),
    0 <= width b -> 0 <= Begin y frame b ->
    Begin (y + Z.of_nat n) frame b <= Z.of_nat (length m) ->
    exists m',
      premultiply_rows n y blend frame b m = Returned m'
      /\ length m' = length m
      /\ forall i, zlookup m' i =
           if decide (Begin y frame b <= i < Begin (y + Z.of_nat n) frame b)
           then premultiply_pixel blend <$> zlookup m i
           else zlookup m i.
Proof.
  induction n as [|n IH]; intros y m Hw Hy Hlen.
  - exists m. replace (y + Z.of_nat 0) with y by lia.
    split; [reflexivity|]. split; [reflexivity|].
    intros i. destruct (decide _); [lia|reflexivity].
  - replace (y + Z.of_nat (S n)) with (y + 1 + Z.of_nat n) in * by lia.
    assert (Hmono : Begin (y + 1) frame b <= Begin (y + 1 + Z.of_nat n) frame b).
    { unfold Begin. nia. }
    pose proof (Begin_succ y frame b) as Hs.
    cbn [premultiply_rows]. unfold Width.
    destruct (premultiply_row_spec blend (Z.to_nat (width b)) (S (length m))
                (Begin y frame b) m) as (m1 & Hrun & Hlen1 & Hpt1).
    { lia. } { lia. } { lia. }
    rewrite Z2Nat.id in Hrun, Hpt1 by lia. rewrite Hrun. cbn [mbind outcome_bind].
    destruct (IH (y + 1) m1) as (m' & Hrun' & Hlen' & Hpt').
    { lia. } { lia. } { lia. }
    exists m'. split; [exact Hrun'|]. split; [lia|].
    intros i. rewrite Hpt', Hpt1.
    destruct (decide (Begin (y + 1) frame b <= i < Begin (y + 1 + Z.of_nat n) frame b)),
             (decide (Begin y frame b <= i < Begin y frame b + width b)),
             (decide (Begin y frame b <= i < Begin (y + 1 + Z.of_nat n) frame b));
      try lia; reflexivity.
Qed.

(** The frames of an allocated buffer lie in its array, one after the
    other. *)
Lemma frame_bounds (b : ImageBuffer) (px : list Z) (frame : Z) :
  Z.of_nat (length px) = width b * height b * frames b ->
  0 < width b -> 0 < height b -> 0 <= frame < frames b ->
  0 <= Begin 0 frame b /\ Begin (height b) frame b <= Z.of_nat (length px).
Proof.
  intros Hlen Hw Hh Hf. unfold Begin. rewrite Hlen. split; [nia|].
  replace (width b * (height b + height b * frame))
    with (width b * height b * (frame + 1)) by ring.
  apply Z.mul_le_mono_nonneg_l; nia.
Qed.

Lemma pixel_in_frame (b : ImageBuffer) (x y frame : Z) :
  0 <= x < width b -> 0 <= y < height b ->
  Begin 0 frame b <= Begin y frame b + x < Begin (height b) frame b.
Proof. intros Hx Hy. unfold Begin. nia. Qed.

Lemma pixel_off_frame (b : ImageBuffer) (x y frame frame' : Z) :
  0 <= x < width b -> 0 <= y < height b -> frame' <> frame ->
  ~ Begin 0 frame b <= Begin y frame' b + x < Begin (height b) frame b.
Proof.
  intros Hx Hy Hne. unfold Begin.
  assert (frame' < frame \/ frame < frame') as [Hlt|Hlt] by lia.
  - assert (height b * (frame' + 1) <= height b * frame) by nia. nia.
  - assert (height b * (frame + 1) <= height b * frame') by nia. nia.
Qed.

(** [Premultiply] returns on every frame of an allocated buffer; it
    replaces each pixel of that frame by its [premultiply_pixel] and
    leaves the other frames alone. *)
Lemma Premultiply_spec (b : ImageBuffer) (frame : Z) (blend : BlendingMode) :
  allocated b = true -> 0 <= frame < Frames b ->
  exists b',
    Premultiply b frame blend = Returned b'
    /\ Width b' = Width b /\ Height b' = Height b /\ Frames b' = Frames b
    /\ allocated b' = true
    /\ (forall x y, 0 <= x < Width b -> 0 <= y < Height b ->
          exists p, pixel b x y frame = Some p
                    /\ pixel b' x y frame = Some (premultiply_pixel blend p))
    /\ (forall x y frame', 0 <= x < Width b -> 0 <= y < Height b -> frame' <> frame ->
          pixel b' x y frame' = pixel b x y frame').
Proof.
  intros Ha Hf. unfold Frames, Width, Height in *.
  destruct (allocated_inv b Ha) as (px & Hpx & Hlen & Hw & Hh & Hfr).
  destruct (frame_bounds b px frame Hlen Hw Hh Hf) as [Hlo Hhi].
  destruct (premultiply_rows_spec blend frame b (Z.to_nat (height b)) 0 px)
    as (m' & Hrun & Hlen' & Hpt).
  { lia. } { exact Hlo. } { rewrite Z2Nat.id by lia. exact Hhi. }
  rewrite Z2Nat.id, Z.add_0_l in Hpt by lia.
  exists (with_pixels b m').
  split. { unfold Premultiply, Height. rewrite Hpx. simpl. rewrite Hrun. reflexivity. }
  split; [reflexivity|]. split; [reflexivity|]. split; [reflexivity|].
  split.
  { unfold allocated, with_pixels. rewrite Hpx. simpl. rewrite Hlen', Hlen, Z.eqb_refl.
    simpl. rewrite !andb_true_iff, !Z.ltb_lt. auto. }
  assert (Hmem : mem (pixels (with_pixels b m')) = m').
  { unfold with_pixels. rewrite Hpx. reflexivity. }
  assert (Hmem0 : mem (pixels b) = px) by (rewrite Hpx; reflexivity).
  assert (HB : forall y fr, Begin y fr (with_pixels b m') = Begin y fr b) by reflexivity.
  split.
  - intros x y Hx Hy. unfold pixel. rewrite Hmem, Hmem0, HB, Hpt.
    pose proof (pixel_in_frame b x y frame Hx Hy) as Hin.
    destruct (decide _); [|lia].
    destruct (zlookup_Some px (Begin y frame b + x)) as [p Hp]; [lia|].
    exists p. rewrite Hp. split; reflexivity.
  - intros x y frame' Hx Hy Hne. unfold pixel. rewrite Hmem, Hmem0, HB, Hpt.
    pose proof (pixel_off_frame b x y frame frame' Hx Hy Hne) as Hout.
    destruct (decide _); [contradiction|reflexivity].
Qed.

(** C4.  For every pixel of the frame that [Premultiply] processes, in
    every blending mode, each colour byte of the stored pixel (red, green,
    blue: bytes 2, 1, 0) is the input's byte times the input's alpha byte,
    divided by 255 and truncated; it depends on no other byte of the
    pixel, and the stored value is a 32-bit word. *)
Theorem Premultiply_colour (b : ImageBuffer) (frame : Z) (blend : BlendingMode) (x y : Z) :
  allocated b = true -> 0 <= frame < Frames b ->
  0 <= x < Width b -> 0 <= y < Height b ->
  exists b' p p',
    Premultiply b frame blend = Returned b'
    /\ pixel b x y frame = Some p /\ pixel b' x y frame = Some p'
    /\ channel 2 p' = channel 2 p * channel 3 p / 255
    /\ channel 1 p' = channel 1 p * channel 3 p / 255
    /\ channel 0 p' = channel 0 p * channel 3 p / 255
    /\ 0 <= p' < 2 ^ 32.
Proof.
  intros Ha Hf Hx Hy.
  destruct (Premultiply_spec b frame blend Ha Hf) as (b' & Hrun & _ & _ & _ & _ & Hpix & _).
  destruct (Hpix x y Hx Hy) as (p & Hp & Hp').
  exists b', p, (premultiply_pixel blend p).
  split; [exact Hrun|]. split; [exact Hp|]. split; [exact Hp'|].
  rewrite !channel_premultiply_colour by lia.
  split; [reflexivity|]. split; [reflexivity|]. split; [reflexivity|].
  unfold premultiply_pixel. cbv zeta. change 0xFFFFFFFF with (Z.ones 32).
  rewrite Z.land_ones by lia. apply Z.mod_pos_bound. reflexivity.
Qed.

(** C5.  For every pixel of the frame that [Premultiply] processes, the
    stored alpha byte is 0 in [ADDITIVE] mode and the input alpha divided
    by 4, truncated, in [HALF_ADDITIVE] mode. *)
Theorem Premultiply_additive_alpha (b : ImageBuffer) (frame : Z) (x y : Z) :
  allocated b = true -> 0 <= frame < Frames b ->
  0 <= x < Width b -> 0 <= y < Height b ->
  exists p,
    pixel b x y frame = Some p
    /\ (exists b' p', Premultiply b frame ADDITIVE = Returned b'
          /\ pixel b' x y frame = Some p' /\ channel 3 p' = 0)
    /\ (exists b' p', Premultiply b frame HALF_ADDITIVE = Returned b'
          /\ pixel b' x y frame = Some p' /\ channel 3 p' = channel 3 p / 4).
Proof.
  intros Ha Hf Hx Hy.
  destruct (Premultiply_spec b frame ADDITIVE Ha Hf) as (b1 & Hrun1 & _ & _ & _ & _ & Hpix1 & _).
  destruct (Premultiply_spec b frame HALF_ADDITIVE Ha Hf)
    as (b2 & Hrun2 & _ & _ & _ & _ & Hpix2 & _).
  destruct (Hpix1 x y Hx Hy) as (p & Hp & Hp1).
  destruct (Hpix2 x y Hx Hy) as (q & Hq & Hp2).
  assert (q = p) as -> by congruence.
  exists p. split; [exact Hp|]. split.
  - exists b1, (premultiply_pixel ADDITIVE p).
    split; [exact Hrun1|]. split; [exact Hp1|]. apply channel_premultiply_alpha.
  - exists b2, (premultiply_pixel HALF_ADDITIVE p).
    split; [exact Hrun2|]. split; [exact Hp2|]. apply channel_premultiply_alpha.
Qed.

(** C8.  For every pixel of the frame that [Premultiply] processes in a
    mode that is neither [ADDITIVE] nor [HALF_ADDITIVE], no colour byte of
    the stored pixel exceeds that byte of the input, and the stored alpha
    byte is the input's. *)
Theorem Premultiply_straight (b : ImageBuffer) (frame : Z) (blend : BlendingMode) (x y : Z) :
  allocated b = true -> 0 <= frame < Frames b ->
  0 <= x < Width b -> 0 <= y < Height b ->
  blend <> ADDITIVE -> blend <> HALF_ADDITIVE ->
  exists b' p p',
    Premultiply b frame blend = Returned b'
    /\ pixel b x y frame = Some p /\ pixel b' x y frame = Some p'
    /\ channel 2 p' <= channel 2 p
    /\ channel 1 p' <= channel 1 p
    /\ channel 0 p' <= channel 0 p
    /\ channel 3 p' = channel 3 p.
Proof.
  intros Ha Hf Hx Hy Hadd Hhalf.
  destruct (Premultiply_spec b frame blend Ha Hf) as (b' & Hrun & _ & _ & _ & _ & Hpix & _).
  destruct (Hpix x y Hx Hy) as (p & Hp & Hp').
  exists b', p, (premultiply_pixel blend p).
  split; [exact Hrun|]. split; [exact Hp|]. split; [exact Hp'|].
  rewrite !channel_premultiply_colour by lia.
  pose proof (channel_range 3 p) as Ha3.
  assert (Hle : forall c, 0 <= c -> c * channel 3 p / 255 <= c).
  { intros c Hc. apply Z.div_le_upper_bound; nia. }
  split; [apply Hle, channel_range|]. split; [apply Hle, channel_range|].
  split; [apply Hle, channel_range|].
  rewrite channel_premultiply_alpha. destruct blend; congruence.
Qed.

(** ** ShrinkToHalfSize *)

(** A zero half dimension: the half-size buffer is not allocated, the loop
    has no pass, and the buffer takes over the empty result. *)
Lemma ShrinkToHalfSize_zero_half (b : ImageBuffer) :
  width b ÷ 2 = 0 \/ height b ÷ 2 = 0 ->
  ShrinkToHalfSize b
  = Returned {| width := 0; height := 0; frames := frames b; pixels := None |}.
Proof.
  intros H. unfold ShrinkToHalfSize.
  rewrite Allocate_noop by (right; simpl; tauto).
  reflexivity.
Qed.

(** C10.  On an allocated buffer whose width or height is below 2,
    [ShrinkToHalfSize] leaves the buffer without storage and with
    [Width()] and [Height()] both 0, whatever the other dimension was. *)
Theorem ShrinkToHalfSize_below_two (b : ImageBuffer) :
  allocated b = true ->
  Width b < 2 \/ Height b < 2 ->
  exists b',
    ShrinkToHalfSize b = Returned b'
    /\ Pixels b' = None /\ Width b' = 0 /\ Height b' = 0 /\ Frames b' = Frames b.
Proof.
  intros Ha Hsmall. unfold Width, Height in Hsmall.
  destruct (allocated_inv b Ha) as (px & _ & _ & Hw & Hh & _).
  eexists. split.
  - apply ShrinkToHalfSize_zero_half.
    destruct Hsmall; [left; replace (width b) with 1 by lia
                     |right; replace (height b) with 1 by lia]; reflexivity.
  - repeat split.
Qed.

Lemma average4_Some (src : list Z) (a b : Z) :
  0 <= a -> a + 4 < 4 * Z.of_nat (length src) ->
  0 <= b -> b + 4 < 4 * Z.of_nat (length src) ->
  exists a0 b0 a4 b4,
    zlookup8 src a = Some a0 /\ zlookup8 src b = Some b0
    /\ zlookup8 src (a + 4) = Some a4 /\ zlookup8 src (b + 4) = Some b4
    /\ average4 src a b = Some ((a0 + b0 + a4 + b4 + 2) / 4)
    /\ u32 (a0 + b0 + a4 + b4 + 2) = a0 + b0 + a4 + b4 + 2
    /\ 0 <= (a0 + b0 + a4 + b4 + 2) / 4 < 256.
Proof.
  intros Ha Ha' Hb Hb'.
  destruct (zlookup8_Some src a) as (a0 & Ea0 & Ra0); [lia|].
  destruct (zlookup8_Some src b) as (b0 & Eb0 & Rb0); [lia|].
  destruct (zlookup8_Some src (a + 4)) as (a4 & Ea4 & Ra4); [lia|].
  destruct (zlookup8_Some src (b + 4)) as (b4 & Eb4 & Rb4); [lia|].
  exists a0, b0, a4, b4. repeat (split; [assumption|]).
  split. { unfold average4. rewrite Ea0, Eb0, Ea4, Eb4. reflexivity. }
  split. { unfold u32. apply Z.mod_small. change (2 ^ 32) with 4294967296. lia. }
  split; [apply Z.div_pos; lia | apply Z.div_lt_upper_bound; lia].
Qed.

Lemma shrink_channels_spec (src : list Z) (n : nat) :
  forall (aIt bIt out : Z) (dst : list Z),
    0 <= aIt -> aIt + 3 + Z.of_nat n < 4 * Z.of_nat (length src) ->
    0 <= bIt -> bIt + 3 + Z.of_nat n < 4 * Z.of_nat (length src) ->
    0 <= out -> out + Z.of_nat n <= 4 * Z.of_nat (length dst) ->
    exists dst',
      shrink_channels n src aIt bIt out dst
      = Returned (aIt + Z.of_nat n, bIt + Z.of_nat n, out + Z.of_nat n, dst')
      /\ length dst' = length dst
      /\ (forall c, 0 <= c < Z.of_nat n ->
            zlookup8 dst' (out + c) = average4 src (aIt + c) (bIt + c))
      /\ (forall j, ~ out <= j < out + Z.of_nat n -> zlookup8 dst' j = zlookup8 dst j).
Proof.
  induction n as [|n IH]; intros aIt bIt out dst Ha Ha' Hb Hb' Ho Ho'.
  - exists dst. simpl. rewrite !Z.add_0_r.
    split; [reflexivity|]. split; [reflexivity|]. split; [lia|reflexivity].
  - destruct (average4_Some src aIt bIt) as (a0 & b0 & a4 & b4 & Ea0 & Eb0 & Ea4 & Eb4 & Eavg & Eu & Rv);
      try lia.
    cbn [shrink_channels]. unfold load8. rewrite Ea0, Eb0, Ea4, Eb4.
    cbn [mbind outcome_bind]. rewrite Eu.
    destruct (store8_spec dst out ((a0 + b0 + a4 + b4 + 2) / 4)) as (dst1 & Est & Hlen1 & Hpt1);
      [lia|lia|].
    rewrite Est. cbn [mbind outcome_bind].
    destruct (IH (aIt + 1) (bIt + 1) (out + 1) dst1) as (dst' & Hrun & Hlen' & Hin & Hout);
      try lia.
    exists dst'.
    replace (aIt + Z.of_nat (S n)) with (aIt + 1 + Z.of_nat n) by lia.
    replace (bIt + Z.of_nat (S n)) with (bIt + 1 + Z.of_nat n) by lia.
    replace (out + Z.of_nat (S n)) with (out + 1 + Z.of_nat n) by lia.
    split; [exact Hrun|]. split; [lia|]. split.
    + intros c Hc. destruct (decide (c = 0)) as [->|Hc0].
      * rewrite !Z.add_0_r. rewrite Hout by lia. rewrite Hpt1.
        destruct (decide (out = out)); [|lia]. symmetry. exact Eavg.
      * replace (out + c) with (out + 1 + (c - 1)) by lia.
        rewrite Hin by lia. f_equal; lia.
    + intros j Hj. rewrite Hout by lia. rewrite Hpt1.
      destruct (decide (j = out)); [lia|reflexivity].
Qed.

Lemma shrink_pixels_spec (src : list Z) (n : nat) :
  forall (fuel : nat) (aIt bIt out : Z) (dst : list Z),
    (n <= fuel)%nat ->
    0 <= aIt -> aIt + 8 * Z.of_nat n <= 4 * Z.of_nat (length src) ->
    0 <= bIt -> bIt + 8 * Z.of_nat n <= 4 * Z.of_nat (length src) ->
    0 <= out -> out + 4 * Z.of_nat n <= 4 * Z.of_nat (length dst) ->
    exists dst',
      shrink_pixels fuel src aIt (aIt + 8 * Z.of_nat n) bIt out dst
      = Returned (out + 4 * Z.of_nat n, dst')
      /\ length dst' = length dst
      /\ (forall k c, 0 <= k < Z.of_nat n -> 0 <= c < 4 ->
            zlookup8 dst' (out + 4 * k + c)
            = average4 src (aIt + 8 * k + c) (bIt + 8 * k + c))
      /\ (forall j, ~ out <= j < out + 4 * Z.of_nat n -> zlookup8 dst' j = zlookup8 dst j).
Proof.
  induction n as [|n IH]; intros fuel aIt bIt out dst Hfuel Ha Ha' Hb Hb' Ho Ho'.
  - exists dst. rewrite !Z.mul_0_r, !Z.add_0_r.
    split; [|split; [reflexivity|split; [lia|reflexivity]]].
    destruct fuel; simpl; destruct (decide (aIt = aIt)); congruence.
  - destruct fuel as [|fuel]; [lia|]. cbn [shrink_pixels].
    destruct (decide (aIt = aIt + 8 * Z.of_nat (S n))); [lia|].
    destruct (shrink_channels_spec src 4 aIt bIt out dst)
      as (dst1 & Hch & Hlen1 & Hin1 & Hout1); try lia.
    rewrite Hch. cbn [mbind outcome_bind]. change (Z.of_nat 4) with 4 in *.
    destruct (IH fuel (aIt + 4 + 4) (bIt + 4 + 4) (out + 4) dst1)
      as (dst' & Hrun & Hlen' & Hin & Hout); try lia.
    exists dst'.
    replace (aIt + 8 * Z.of_nat (S n)) with (aIt + 4 + 4 + 8 * Z.of_nat n) by lia.
    replace (out + 4 * Z.of_nat (S n)) with (out + 4 + 4 * Z.of_nat n) by lia.
    split; [exact Hrun|]. split; [lia|]. split.
    + intros k c Hk Hc. destruct (decide (k = 0)) as [->|Hk0].
      * rewrite !Z.mul_0_r, !Z.add_0_r. rewrite Hout by lia. apply Hin1. lia.
      * replace (out + 4 * k + c) with (out + 4 + 4 * (k - 1) + c) by lia.
        rewrite Hin by lia. f_equal; lia.
    + intros j Hj. rewrite Hout by lia. apply Hout1. lia.
Qed.

Lemma shrink_rows_spec (src : list Z) (w rw : Z) (n : nat) :
  forall (y out : Z) (dst : list Z),
    0 <= y -> 0 <= rw -> 2 * rw <= w -> 0 < w ->
    4 * Z.of_nat (length src) <= INT_MAX ->
    w * (2 * (y + Z.of_nat n)) <= Z.of_nat (length src) ->
    out = 4 * rw * y ->
    4 * rw * (y + Z.of_nat n) <= 4 * Z.of_nat (length dst) ->
    exists dst',
      shrink_rows n y src w rw out dst = Returned dst'
      /\ length dst' = length dst
      /\ (forall r k c, 0 <= r < Z.of_nat n -> 0 <= k < rw -> 0 <= c < 4 ->
            zlookup8 dst' (4 * rw * (y + r) + 4 * k + c)
            = average4 src (4 * w * (2 * (y + r)) + 8 * k + c)
                           (4 * w * (2 * (y + r) + 1) + 8 * k + c))
      /\ (forall j, ~ 4 * rw * y <= j < 4 * rw * (y + Z.of_nat n) ->
            zlookup8 dst' j = zlookup8 dst j).
Proof.
  induction n as [|n IH]; intros y out dst Hy Hrw Hw Hw0 Hint Hsrc Hout Hdst.
  - exists dst. split; [reflexivity|]. split; [reflexivity|]. split; [lia|reflexivity].
  - cbn [shrink_rows].
    assert (Hrow : w * (2 * y + 2) <= Z.of_nat (length src)) by nia.
    assert (Hrw' : 4 * rw * (y + 1) <= 4 * rw * (y + Z.of_nat (S n))) by nia.
    assert (Hmax : 4 * w * (2 * y + 2) <= INT_MAX) by lia.
    assert (Hb : w * (2 * y) <= w * (2 * y + 2) /\ w * (2 * y + 1) <= w * (2 * y + 2)
                 /\ w <= w * (2 * y + 2) /\ 2 * y + 2 <= w * (2 * y + 2)
                 /\ 0 <= w * (2 * y)) by nia.
    unfold INT_MAX in Hmax.
    rewrite (int_mul_in 4 w) by (unfold INT_MIN, INT_MAX; lia). cbn [mbind outcome_bind].
    rewrite (int_mul_in 2 y) by (unfold INT_MIN, INT_MAX; lia). cbn [mbind outcome_bind].
    rewrite (int_mul_in (4 * w) (2 * y)) by (unfold INT_MIN, INT_MAX; lia).
    cbn [mbind outcome_bind].
    rewrite (int_mul_in 4 2) by (unfold INT_MIN, INT_MAX; lia). cbn [mbind outcome_bind].
    rewrite (int_mul_in (4 * 2) rw) by (unfold INT_MIN, INT_MAX; lia).
    cbn [mbind outcome_bind].
    rewrite (int_add_in (2 * y) 1) by (unfold INT_MIN, INT_MAX; lia).
    cbn [mbind outcome_bind].
    rewrite (int_mul_in (4 * w) (2 * y + 1)) by (unfold INT_MIN, INT_MAX; lia).
    cbn [mbind outcome_bind].
    replace (4 * w * (2 * y) + 4 * 2 * rw)
      with (4 * w * (2 * y) + 8 * Z.of_nat (Z.to_nat rw)) by lia.
    destruct (shrink_pixels_spec src (Z.to_nat rw) (S (length src))
                (4 * w * (2 * y)) (4 * w * (2 * y + 1)) out dst)
      as (dst1 & Hpx & Hlen1 & Hin1 & Hout1); try nia.
    rewrite Hpx. cbn [mbind outcome_bind]. rewrite Z2Nat.id in * by lia.
    destruct (IH (y + 1) (out + 4 * rw) dst1) as (dst' & Hrun & Hlen' & Hin & Hout');
      try nia.
    exists dst'. split; [exact Hrun|]. split; [lia|]. split.
    + intros r k c Hr Hk Hc. destruct (decide (r = 0)) as [->|Hr0].
      * rewrite !Z.add_0_r. rewrite Hout' by nia.
        replace (4 * rw * y + 4 * k + c) with (out + 4 * k + c) by lia.
        apply Hin1; lia.
      * replace (y + r) with (y + 1 + (r - 1)) by lia. apply Hin; lia.
    + intros j Hj. rewrite Hout' by nia. apply Hout1. nia.
Qed.

Lemma mem_Some (px : list Z) : mem (Some px) = px.
Proof. reflexivity. Qed.

Lemma half_bounds (n : Z) : 2 <= n -> 1 <= n ÷ 2 /\ 2 * (n ÷ 2) <= n /\ n <= 2 * (n ÷ 2) + 1.
Proof.
  intros Hn. rewrite Z.quot_div_nonneg by lia.
  pose proof (Z.div_mod n 2). pose proof (Z.mod_pos_bound n 2). lia.
Qed.

(** What the loops compute, row by row of the concatenated frames: byte
    [c] of the output pixel in column [k] of output row [r] is the average
    of the bytes [c] of the source pixels in columns [2k] and [2k + 1] of
    the source rows [2r] and [2r + 1], counted across all frames. *)
Lemma ShrinkToHalfSize_spec (b : ImageBuffer) :
  allocated b = true -> 2 <= width b -> 2 <= height b ->
  4 * (width b * height b * frames b) <= INT_MAX ->
  exists px dst,
    pixels b = Some px
    /\ ShrinkToHalfSize b
       = Returned {| width := width b ÷ 2; height := height b ÷ 2;
                     frames := frames b; pixels := Some dst |}
    /\ Z.of_nat (length dst) = (width b ÷ 2) * (height b ÷ 2) * frames b
    /\ forall r k c,
         0 <= r < (height b ÷ 2) * frames b -> 0 <= k < width b ÷ 2 -> 0 <= c < 4 ->
         zlookup8 dst (4 * ((width b ÷ 2) * r + k) + c)
         = average4 px (4 * (width b * (2 * r) + 2 * k) + c)
                       (4 * (width b * (2 * r + 1) + 2 * k) + c).
Proof.
  intros Ha Hw2 Hh2 Hint.
  destruct (allocated_inv b Ha) as (px & Hpx & Hlen & Hw & Hh & Hf).
  destruct (half_bounds _ Hw2) as (Hrw1 & Hrw2 & _).
  destruct (half_bounds _ Hh2) as (Hrh1 & Hrh2 & _).
  set (rw := width b ÷ 2) in *. set (rh := height b ÷ 2) in *.
  assert (Hn : 0 <= rw * rh * frames b) by nia.
  assert (Hrows : 0 <= rh * frames b) by nia.
  assert (Hsmall : rh * frames b <= rw * rh * frames b
                   /\ rw * rh * frames b <= width b * height b * frames b).
  { split; [nia|]. apply Z.mul_le_mono_nonneg_r; [lia|].
    apply Z.mul_le_mono_nonneg; lia. }
  unfold ShrinkToHalfSize. fold rw rh.
  rewrite Allocate_fresh by lia. cbn [mbind outcome_bind].
  cbn [width height frames pixels].
  rewrite int_mul_in by (unfold INT_MIN, INT_MAX in *; lia). cbn [mbind outcome_bind].
  rewrite Hpx, !mem_Some.
  set (fresh := map junk (seq 0 (Z.to_nat (rw * rh * frames b)))).
  assert (Hfresh : Z.of_nat (length fresh) = rw * rh * frames b).
  { unfold fresh. rewrite length_map, length_seq. lia. }
  destruct (shrink_rows_spec px (width b) rw (Z.to_nat (rh * frames b)) 0 0 fresh)
    as (dst & Hrun & Hlen' & Hin & _); try lia; try (rewrite Z2Nat.id by lia; nia).
  rewrite Hrun. cbn [mbind outcome_bind].
  exists px, dst. split; [reflexivity|]. split; [reflexivity|]. split; [lia|].
  intros r k c Hr Hk Hc. rewrite Z2Nat.id in Hin by lia.
  specialize (Hin r k c Hr Hk Hc). rewrite !Z.add_0_l in Hin.
  replace (4 * (rw * r + k) + c) with (4 * rw * r + 4 * k + c) by ring.
  rewrite Hin. f_equal; ring.
Qed.

(** C1, as amended.  On an allocated buffer of width and height at least
    2 whose size in bytes, [4 * width * height * frames], is an [int] (at
    most [INT_MAX]), [ShrinkToHalfSize] returns a buffer of width/2 by
    height/2 with the same frame count; for each output pixel [(x, y)] of
    frame 0, and of every frame when the height is even, each of its four
    bytes is [(a + b + c + d + 2) / 4], truncated, for that byte of the
    input pixels [(2x, 2y)], [(2x+1, 2y)], [(2x, 2y+1)], [(2x+1, 2y+1)] of
    the same frame. *)
Theorem ShrinkToHalfSize_average (b : ImageBuffer) :
  allocated b = true -> 2 <= Width b -> 2 <= Height b ->
  4 * (Width b * Height b * Frames b) <= INT_MAX ->
  exists b',
    ShrinkToHalfSize b = Returned b'
    /\ Width b' = Width b ÷ 2 /\ Height b' = Height b ÷ 2 /\ Frames b' = Frames b
    /\ allocated b' = true
    /\ forall x y frame c,
         0 <= x < Width b' -> 0 <= y < Height b' -> 0 <= frame < Frames b' ->
         0 <= c < 4 ->
         Z.even (Height b) = true \/ frame = 0 ->
         exists p' pa pb pc pd,
           pixel b' x y frame = Some p'
           /\ pixel b (2 * x) (2 * y) frame = Some pa
           /\ pixel b (2 * x + 1) (2 * y) frame = Some pb
           /\ pixel b (2 * x) (2 * y + 1) frame = Some pc
           /\ pixel b (2 * x + 1) (2 * y + 1) frame = Some pd
           /\ channel c p'
              = (channel c pa + channel c pb + channel c pc + channel c pd + 2) / 4.
Proof.
  unfold Width, Height, Frames. intros Ha Hw2 Hh2 Hint.
  destruct (ShrinkToHalfSize_spec b Ha Hw2 Hh2 Hint) as (px & dst & Hpx & Hrun & Hlen' & Hin).
  clear Hint.
  destruct (allocated_inv b Ha) as (px0 & Hpx0 & Hlen & Hw & Hh & Hf).
  assert (px0 = px) as -> by congruence.
  destruct (half_bounds _ Hw2) as (Hrw1 & Hrw2 & _).
  destruct (half_bounds _ Hh2) as (Hrh1 & Hrh2 & _).
  eexists. split; [exact Hrun|]. cbn [width height frames].
  split; [reflexivity|]. split; [reflexivity|]. split; [reflexivity|]. split.
  { unfold allocated. cbn [width height frames pixels]. rewrite Hlen', Z.eqb_refl.
    simpl. rewrite !andb_true_iff, !Z.ltb_lt. repeat split; lia. }
  set (rw := width b ÷ 2) in *. set (rh := height b ÷ 2) in *.
  intros x y frame c Hx Hy Hfr Hc Heven.
  assert (Hrows : 2 * (y + rh * frame) = 2 * y + height b * frame).
  { destruct Heven as [Heven| ->]; [|lia].
    apply Z.even_spec in Heven. destruct Heven as [k Hk].
    assert (rh = k) as ->; [|nia].
    unfold rh. rewrite Hk, Z.mul_comm. apply Z.quot_mul. lia. }
  assert (Hr : 0 <= y + rh * frame < rh * frames b) by nia.
  specialize (Hin (y + rh * frame) x c Hr Hx Hc).
  unfold pixel, Begin. cbn [width height frames pixels]. rewrite Hpx, !mem_Some.
  rewrite zlookup8_word in Hin by lia.
  set (ia := width b * (2 * y + height b * frame) + 2 * x).
  set (ic := width b * (2 * y + 1 + height b * frame) + 2 * x).
  assert (Hlast : width b * (2 * y + 1 + height b * frame) + width b
                  <= Z.of_nat (length px)).
  { rewrite Hlen.
    replace (width b * (2 * y + 1 + height b * frame) + width b)
      with (width b * (2 * y + 2 + height b * frame)) by ring.
    rewrite <- Z.mul_assoc. apply Z.mul_le_mono_nonneg_l; nia. }
  assert (Hia : 0 <= ia) by (unfold ia; nia).
  assert (Hic : ia <= ic /\ ic + 1 < Z.of_nat (length px)) by (unfold ia, ic; nia).
  destruct (zlookup_Some px ia) as [pa Epa]; [lia|].
  destruct (zlookup_Some px (ia + 1)) as [pb Epb]; [lia|].
  destruct (zlookup_Some px ic) as [pc Epc]; [lia|].
  destruct (zlookup_Some px (ic + 1)) as [pd Epd]; [lia|].
  unfold average4 in Hin.
  replace (4 * (width b * (2 * (y + rh * frame)) + 2 * x) + c) with (4 * ia + c) in Hin
    by (unfold ia; nia).
  replace (4 * (width b * (2 * (y + rh * frame) + 1) + 2 * x) + c) with (4 * ic + c) in Hin
    by (unfold ic; nia).
  replace (4 * ia + c + 4) with (4 * (ia + 1) + c) in Hin by ring.
  replace (4 * ic + c + 4) with (4 * (ic + 1) + c) in Hin by ring.
  rewrite !zlookup8_word, Epa, Epb, Epc, Epd in Hin by lia.
  cbn [fmap option_fmap option_map mbind option_bind] in Hin.
  destruct (zlookup dst (rw * (y + rh * frame) + x)) as [p'|] eqn:Ep'; [|discriminate].
  injection Hin as Hin.
  exists p', pa, pb, pc, pd.
  split; [reflexivity|].
  replace (width b * (2 * y + height b * frame) + (2 * x + 1)) with (ia + 1)
    by (unfold ia; ring).
  replace (width b * (2 * y + 1 + height b * frame) + (2 * x + 1)) with (ic + 1)
    by (unfold ic; ring).
  repeat (split; [assumption|]).
  rewrite Hin. f_equal. ring.
Qed.

(** ** Further properties of the buffer operations *)

(** *** Addressing *)

Lemma address_bounds (w h f x y frame : Z) :
  0 <= x < w -> 0 <= y < h -> 0 <= frame < f ->
  0 <= w * (y + h * frame) + x < w * h * f.
Proof.
  intros Hx Hy Hf.
  assert (H1 : 0 <= h * frame) by (apply Z.mul_nonneg_nonneg; lia).
  assert (H2 : 0 <= w * (y + h * frame)) by (apply Z.mul_nonneg_nonneg; lia).
  assert (H3 : h * (frame + 1) <= h * f) by (apply Z.mul_le_mono_nonneg_l; lia).
  assert (H4 : w * (y + h * frame + 1) <= w * (h * f))
    by (apply Z.mul_le_mono_nonneg_l; lia).
  lia.
Qed.

Lemma address_injective (w h x y frame x' y' frame' : Z) :
  0 <= x < w -> 0 <= y < h -> 0 <= x' < w -> 0 <= y' < h ->
  w * (y + h * frame) + x = w * (y' + h * frame') + x' ->
  x = x' /\ y = y' /\ frame = frame'.
Proof.
  intros Hx Hy Hx' Hy' Heq.
  assert (Hrow : y + h * frame = y' + h * frame') by nia.
  assert (Hfr : frame = frame') by nia.
  subst frame'. split; [nia|]. split; [lia|reflexivity].
Qed.

Lemma address_coordinates (w h f i : Z) :
  0 < w -> 0 < h -> 0 <= i < w * h * f ->
  exists x y frame,
    0 <= x < w /\ 0 <= y < h /\ 0 <= frame < f /\ i = w * (y + h * frame) + x.
Proof.
  intros Hw Hh Hi.
  pose proof (Z.div_mod i w ltac:(lia)) as Ei.
  pose proof (Z.mod_pos_bound i w Hw) as Hx.
  pose proof (Z.div_mod (i / w) h ltac:(lia)) as Et.
  pose proof (Z.mod_pos_bound (i / w) h Hh) as Hy.
  assert (Ht : 0 <= i / w < h * f).
  { split; [apply Z.div_pos; lia|].
    apply Z.div_lt_upper_bound; [lia|]. rewrite Z.mul_assoc. lia. }
  assert (Hf : 0 <= i / w / h < f).
  { split; [apply Z.div_pos; lia|]. apply Z.div_lt_upper_bound; lia. }
  exists (i mod w), ((i / w) mod h), (i / w / h).
  repeat (split; [lia|]). rewrite (Z.add_comm (_ mod h)), <- Et. exact Ei.
Qed.

(** [Begin(y, frame) + x] addresses the pixels of an allocated buffer one
    to one: every pixel of every frame lies in the array, two different
    pixels never share an element, and every element of the array is the
    pixel of some column, row and frame. *)
Theorem Begin_addresses_pixels (b : ImageBuffer) :
  allocated b = true ->
  (forall x y frame,
     0 <= x < Width b -> 0 <= y < Height b -> 0 <= frame < Frames b ->
     exists p, pixel b x y frame = Some p)
  /\ (forall x y frame x' y' frame',
        0 <= x < Width b -> 0 <= y < Height b ->
        0 <= x' < Width b -> 0 <= y' < Height b ->
        Begin y frame b + x = Begin y' frame' b + x' ->
        x = x' /\ y = y' /\ frame = frame')
  /\ (forall i p,
        zlookup (mem (Pixels b)) i = Some p ->
        exists x y frame,
          0 <= x < Width b /\ 0 <= y < Height b /\ 0 <= frame < Frames b
          /\ i = Begin y frame b + x).
Proof.
  intros Ha. unfold Width, Height, Frames, Pixels.
  destruct (allocated_inv b Ha) as (px & Hpx & Hlen & Hw & Hh & Hf).
  split; [|split].
  - intros x y frame Hx Hy Hfr. unfold pixel, Begin. rewrite Hpx.
    apply zlookup_Some. change (mem (Some px)) with px. rewrite Hlen.
    apply address_bounds; assumption.
  - intros x y frame x' y' frame' Hx Hy Hx' Hy'. unfold Begin.
    apply address_injective; assumption.
  - intros i p Hi. rewrite Hpx in Hi. apply zlookup_range in Hi.
    change (mem (Some px)) with px in Hi. rewrite Hlen in Hi.
    unfold Begin. apply address_coordinates; assumption.
Qed.

(** *** Clear and Allocate *)


(** *** Premultiply: frames, opaque and transparent pixels *)

(** [Premultiply] works on one frame: the dimensions, the frame count and
    every pixel of every other frame stay as they are. *)
Theorem Premultiply_other_frames (b : ImageBuffer) (frame : Z) (blend : BlendingMode) :
  allocated b = true -> 0 <= frame < Frames b ->
  exists b',
    Premultiply b frame blend = Returned b'
    /\ Width b' = Width b /\ Height b' = Height b /\ Frames b' = Frames b
    /\ forall x y frame',
         0 <= x < Width b -> 0 <= y < Height b -> frame' <> frame ->
         pixel b' x y frame' = pixel b x y frame'.
Proof.
  intros Ha Hf.
  destruct (Premultiply_spec b frame blend Ha Hf)
    as (b' & Hrun & Hw & Hh & Hfr & _ & _ & Hother).
  exists b'. repeat (split; [assumption|]). exact Hother.
Qed.

(** Two 32-bit words with the same four bytes are equal. *)
Lemma word_ext (p q : Z) :
  0 <= p < 2 ^ 32 -> 0 <= q < 2 ^ 32 ->
  (forall k, 0 <= k < 4 -> channel k p = channel k q) -> p = q.
Proof.
  intros Hp Hq Hch.
  assert (Hhi : forall v i, 0 <= v < 2 ^ 32 -> 32 <= i -> Z.testbit v i = false).
  { intros v i Hv Hi. rewrite <- (Z.mod_small v (2 ^ 32)) by assumption.
    apply Z.mod_pow2_bits_high. lia. }
  apply Z.bits_inj'. intros i Hi.
  destruct (Z_lt_le_dec i 32) as [Hlt|Hge].
  - pose proof (Z.div_mod i 8 ltac:(lia)) as Ei.
    pose proof (Z.mod_pos_bound i 8 ltac:(lia)) as Hj.
    assert (Hk : 0 <= i / 8 < 4).
    { split; [apply Z.div_pos; lia | apply Z.div_lt_upper_bound; lia]. }
    pose proof (f_equal (fun v => Z.testbit v (i mod 8)) (Hch (i / 8) Hk)) as Hbit.
    cbv beta in Hbit. rewrite !channel_testbit in Hbit by lia.
    replace (i mod 8 + 8 * (i / 8)) with i in Hbit by lia.
    destruct (Z.ltb_spec (i mod 8) 8); [|lia]. exact Hbit.
  - rewrite !Hhi by assumption. reflexivity.
Qed.

Lemma premultiply_pixel_range (blend : BlendingMode) (p : Z) :
  0 <= premultiply_pixel blend p < 2 ^ 32.
Proof.
  unfold premultiply_pixel. cbv zeta. change 0xFFFFFFFF with (Z.ones 32).
  rewrite Z.land_ones by lia. apply Z.mod_pos_bound. reflexivity.
Qed.

(** A fully opaque pixel is a fixed point of the loop body outside the
    additive modes. *)
Lemma premultiply_pixel_opaque (blend : BlendingMode) (p : Z) :
  0 <= p < 2 ^ 32 -> channel 3 p = 255 ->
  blend <> ADDITIVE -> blend <> HALF_ADDITIVE ->
  premultiply_pixel blend p = p.
Proof.
  intros Hp Ha Hadd Hhalf. apply word_ext; [apply premultiply_pixel_range|assumption|].
  intros k Hk. destruct (decide (k = 3)) as [->|Hk3].
  - rewrite channel_premultiply_alpha. destruct blend; congruence.
  - rewrite channel_premultiply_colour by lia. rewrite Ha. apply Z.div_mul. lia.
Qed.

(** A fully transparent pixel becomes 0 in every mode. *)
Lemma premultiply_pixel_transparent (blend : BlendingMode) (p : Z) :
  channel 3 p = 0 -> premultiply_pixel blend p = 0.
Proof.
  intros Ha. apply word_ext; [apply premultiply_pixel_range|simpl; lia|].
  intros k Hk. replace (channel k 0) with 0
    by (unfold channel; rewrite Z.shiftr_0_l; reflexivity).
  destruct (decide (k = 3)) as [->|Hk3].
  - rewrite channel_premultiply_alpha, Ha. destruct blend; reflexivity.
  - rewrite channel_premultiply_colour by lia. rewrite Ha, Z.mul_0_r. reflexivity.
Qed.

(** In [ADDITIVE] mode a fully opaque pixel only loses its alpha byte. *)
Lemma premultiply_pixel_additive_opaque (p : Z) :
  channel 3 p = 255 -> premultiply_pixel ADDITIVE p = Z.land p 0xFFFFFF.
Proof.
  intros Ha.
  assert (Hr : 0 <= Z.land p 0xFFFFFF < 2 ^ 32).
  { change 0xFFFFFF with (Z.ones 24). rewrite Z.land_ones by lia.
    pose proof (Z.mod_pos_bound p (2 ^ 24) ltac:(reflexivity)).
    change (2 ^ 24) with 16777216 in *. change (2 ^ 32) with 4294967296. lia. }
  apply word_ext; [apply premultiply_pixel_range|assumption|].
  intros k Hk.
  assert (Hland : channel k (Z.land p 0xFFFFFF) = if k =? 3 then 0 else channel k p).
  { apply Z.bits_inj'. intros i Hi. rewrite channel_testbit by lia.
    rewrite Z.land_spec. change 0xFFFFFF with (Z.ones 24).
    destruct (Z.eqb_spec k 3) as [->|Hk3].
    - rewrite Z.testbit_0_l.
      destruct (Z.ltb_spec i 8); [|reflexivity]. simpl.
      rewrite Z.ones_spec_high by lia. apply andb_false_r.
    - rewrite channel_testbit by lia.
      destruct (Z.ltb_spec i 8); [|reflexivity]. simpl.
      rewrite Z.ones_spec_low by lia. apply andb_true_r. }
  rewrite Hland. destruct (Z.eqb_spec k 3) as [->|Hk3].
  - apply channel_premultiply_alpha.
  - rewrite channel_premultiply_colour by lia. rewrite Ha. apply Z.div_mul. lia.
Qed.

(** Outside the additive modes [Premultiply] leaves every fully opaque
    pixel (alpha byte 255) of the frame exactly as it was. *)
Theorem Premultiply_opaque (b : ImageBuffer) (frame : Z) (blend : BlendingMode) (x y p : Z) :
  allocated b = true -> 0 <= frame < Frames b ->
  0 <= x < Width b -> 0 <= y < Height b ->
  blend <> ADDITIVE -> blend <> HALF_ADDITIVE ->
  pixel b x y frame = Some p -> 0 <= p < 2 ^ 32 -> channel 3 p = 255 ->
  exists b', Premultiply b frame blend = Returned b' /\ pixel b' x y frame = Some p.
Proof.
  intros Ha Hf Hx Hy Hadd Hhalf Hp Hr H255.
  destruct (Premultiply_spec b frame blend Ha Hf) as (b' & Hrun & _ & _ & _ & _ & Hpix & _).
  destruct (Hpix x y Hx Hy) as (q & Hq & Hq').
  assert (q = p) as -> by congruence.
  exists b'. split; [exact Hrun|].
  rewrite Hq', premultiply_pixel_opaque by assumption. reflexivity.
Qed.

(** In every mode [Premultiply] turns a fully transparent pixel (alpha
    byte 0) of the frame into 0. *)
Theorem Premultiply_transparent (b : ImageBuffer) (frame : Z) (blend : BlendingMode) (x y p : Z) :
  allocated b = true -> 0 <= frame < Frames b ->
  0 <= x < Width b -> 0 <= y < Height b ->
  pixel b x y frame = Some p -> channel 3 p = 0 ->
  exists b', Premultiply b frame blend = Returned b' /\ pixel b' x y frame = Some 0.
Proof.
  intros Ha Hf Hx Hy Hp H0.
  destruct (Premultiply_spec b frame blend Ha Hf) as (b' & Hrun & _ & _ & _ & _ & Hpix & _).
  destruct (Hpix x y Hx Hy) as (q & Hq & Hq').
  assert (q = p) as -> by congruence.
  exists b'. split; [exact Hrun|].
  rewrite Hq', premultiply_pixel_transparent by assumption. reflexivity.
Qed.

(** In [ADDITIVE] mode [Premultiply] keeps the colour bytes of a fully
    opaque pixel and clears its alpha byte: the pixel becomes
    [p & 0x00FFFFFF]. *)
Theorem Premultiply_additive_opaque (b : ImageBuffer) (frame : Z) (x y p : Z) :
  allocated b = true -> 0 <= frame < Frames b ->
  0 <= x < Width b -> 0 <= y < Height b ->
  pixel b x y frame = Some p -> channel 3 p = 255 ->
  exists b',
    Premultiply b frame ADDITIVE = Returned b'
    /\ pixel b' x y frame = Some (Z.land p 0xFFFFFF).
Proof.
  intros Ha Hf Hx Hy Hp H255.
  destruct (Premultiply_spec b frame ADDITIVE Ha Hf) as (b' & Hrun & _ & _ & _ & _ & Hpix & _).
  destruct (Hpix x y Hx Hy) as (q & Hq & Hq').
  assert (q = p) as -> by congruence.
  exists b'. split; [exact Hrun|].
  rewrite Hq', premultiply_pixel_additive_opaque by assumption. reflexivity.
Qed.

(** *** ShrinkToHalfSize: what it computes in every case *)

Lemma row_coordinates (h f r : Z) :
  0 < h -> 0 <= r < h * f -> exists y frame, 0 <= y < h /\ 0 <= frame < f /\ r = y + h * frame.
Proof.
  intros Hh Hr.
  pose proof (Z.div_mod r h ltac:(lia)) as Er.
  pose proof (Z.mod_pos_bound r h Hh) as Hy.
  exists (r mod h), (r / h). split; [lia|]. split; [|lia].
  split; [apply Z.div_pos; lia | apply Z.div_lt_upper_bound; lia].
Qed.

(** The loops in terms of pixels, with the rows of all frames counted
    from the start of the arrays: output pixel [k] of output row [r] is,
    byte by byte, the average of the source pixels [2k] and [2k + 1] of
    the source rows [2r] and [2r + 1]. *)
Lemma ShrinkToHalfSize_flat (b : ImageBuffer) :
  allocated b = true -> 2 <= width b -> 2 <= height b ->
  4 * (width b * height b * frames b) <= INT_MAX ->
  exists px dst,
    pixels b = Some px
    /\ ShrinkToHalfSize b
       = Returned {| width := width b ÷ 2; height := height b ÷ 2;
                     frames := frames b; pixels := Some dst |}
    /\ Z.of_nat (length dst) = (width b ÷ 2) * (height b ÷ 2) * frames b
    /\ forall r k,
         0 <= r < (height b ÷ 2) * frames b -> 0 <= k < width b ÷ 2 ->
         exists p' pa pb pc pd,
           zlookup dst ((width b ÷ 2) * r + k) = Some p'
           /\ zlookup px (width b * (2 * r) + 2 * k) = Some pa
           /\ zlookup px (width b * (2 * r) + 2 * k + 1) = Some pb
           /\ zlookup px (width b * (2 * r + 1) + 2 * k) = Some pc
           /\ zlookup px (width b * (2 * r + 1) + 2 * k + 1) = Some pd
           /\ forall c, 0 <= c < 4 ->
                channel c p'
                = (channel c pa + channel c pb + channel c pc + channel c pd + 2) / 4.
Proof.
  intros Ha Hw2 Hh2 Hint.
  destruct (ShrinkToHalfSize_spec b Ha Hw2 Hh2 Hint) as (px & dst & Hpx & Hrun & Hlen' & Hin).
  clear Hint.
  destruct (allocated_inv b Ha) as (px0 & Hpx0 & Hlen & Hw & Hh & Hf).
  assert (px0 = px) as -> by congruence.
  destruct (half_bounds _ Hw2) as (Hrw1 & Hrw2 & _).
  destruct (half_bounds _ Hh2) as (Hrh1 & Hrh2 & _).
  exists px, dst. repeat (split; [assumption|]).
  set (rw := width b ÷ 2) in *. set (rh := height b ÷ 2) in *.
  intros r k Hr Hk.
  set (ia := width b * (2 * r) + 2 * k).
  set (ic := width b * (2 * r + 1) + 2 * k).
  assert (Hrows : 2 * r + 2 <= height b * frames b) by nia.
  assert (Hlast : width b * (2 * r + 2) <= Z.of_nat (length px)).
  { rewrite Hlen, <- Z.mul_assoc. apply Z.mul_le_mono_nonneg_l; lia. }
  assert (Hia : 0 <= ia) by (unfold ia; nia).
  assert (Hic : ia <= ic /\ ic + 1 < Z.of_nat (length px)) by (unfold ia, ic; nia).
  destruct (zlookup_Some px ia) as [pa Epa]; [lia|].
  destruct (zlookup_Some px (ia + 1)) as [pb Epb]; [lia|].
  destruct (zlookup_Some px ic) as [pc Epc]; [lia|].
  destruct (zlookup_Some px (ic + 1)) as [pd Epd]; [lia|].
  destruct (zlookup_Some dst (rw * r + k)) as [p' Ep']; [nia|].
  exists p', pa, pb, pc, pd. repeat (split; [assumption|]).
  intros c Hc. specialize (Hin r k c Hr Hk Hc).
  unfold average4 in Hin. fold ia ic in Hin.
  replace (4 * ia + c + 4) with (4 * (ia + 1) + c) in Hin by ring.
  replace (4 * ic + c + 4) with (4 * (ic + 1) + c) in Hin by ring.
  rewrite !zlookup8_word, Ep', Epa, Epb, Epc, Epd in Hin by lia.
  cbn [fmap option_fmap option_map mbind option_bind] in Hin.
  injection Hin as Hin. rewrite Hin. f_equal. ring.
Qed.

(** On an allocated buffer of width and height at least 2 whose size in
    bytes is an [int], for every output pixel of every frame, whatever the
    parity of the height: pixel [(x, y)] of output frame [frame] is, byte by byte,
    [(a + b + c + d + 2) / 4] of the input pixels in columns [2x] and
    [2x + 1] of the rows [2r] and [2r + 1] of the input array, where
    [r = y + (height / 2) * frame] and rows are counted from the start of
    the array across all frames. *)
Theorem ShrinkToHalfSize_rows (b : ImageBuffer) :
  allocated b = true -> 2 <= Width b -> 2 <= Height b ->
  4 * (Width b * Height b * Frames b) <= INT_MAX ->
  exists b',
    ShrinkToHalfSize b = Returned b'
    /\ forall x y frame,
         0 <= x < Width b' -> 0 <= y < Height b' -> 0 <= frame < Frames b' ->
         exists p' pa pb pc pd,
           pixel b' x y frame = Some p'
           /\ pixel b (2 * x) (2 * (y + Height b' * frame)) 0 = Some pa
           /\ pixel b (2 * x + 1) (2 * (y + Height b' * frame)) 0 = Some pb
           /\ pixel b (2 * x) (2 * (y + Height b' * frame) + 1) 0 = Some pc
           /\ pixel b (2 * x + 1) (2 * (y + Height b' * frame) + 1) 0 = Some pd
           /\ forall c, 0 <= c < 4 ->
                channel c p'
                = (channel c pa + channel c pb + channel c pc + channel c pd + 2) / 4.
Proof.
  unfold Width, Height, Frames. intros Ha Hw2 Hh2 Hint.
  destruct (ShrinkToHalfSize_flat b Ha Hw2 Hh2 Hint) as (px & dst & Hpx & Hrun & _ & Hin).
  clear Hint.
  destruct (half_bounds _ Hh2) as (Hrh1 & _ & _).
  eexists. split; [exact Hrun|]. cbn [width height frames].
  intros x y frame Hx Hy Hfr.
  assert (Hr : 0 <= y + height b ÷ 2 * frame < height b ÷ 2 * frames b) by nia.
  destruct (Hin _ x Hr Hx) as (p' & pa & pb & pc & pd & Ep' & Epa & Epb & Epc & Epd & Havg).
  exists p', pa, pb, pc, pd.
  unfold pixel, Begin. cbn [width height frames pixels]. rewrite Hpx, !mem_Some.
  rewrite !Z.mul_0_r, !Z.add_0_r.
  split; [exact Ep'|]. split; [exact Epa|].
  split; [rewrite <- Epb; f_equal; ring|]. split; [exact Epc|].
  split; [rewrite <- Epd; f_equal; ring|]. exact Havg.
Qed.

(** A buffer whose pixels all have one colour (width and height at least
    2, size in bytes an [int]) shrinks to a buffer whose pixels all have
    the bytes of that colour, in every frame and for odd dimensions
    too. *)
Theorem ShrinkToHalfSize_uniform (b : ImageBuffer) (colour : Z) :
  allocated b = true -> 2 <= Width b -> 2 <= Height b ->
  4 * (Width b * Height b * Frames b) <= INT_MAX ->
  (forall x y frame,
     0 <= x < Width b -> 0 <= y < Height b -> 0 <= frame < Frames b ->
     pixel b x y frame = Some colour) ->
  exists b',
    ShrinkToHalfSize b = Returned b'
    /\ forall x y frame c,
         0 <= x < Width b' -> 0 <= y < Height b' -> 0 <= frame < Frames b' ->
         0 <= c < 4 ->
         exists p', pixel b' x y frame = Some p' /\ channel c p' = channel c colour.
Proof.
  unfold Width, Height, Frames. intros Ha Hw2 Hh2 Hint Hall.
  destruct (ShrinkToHalfSize_flat b Ha Hw2 Hh2 Hint) as (px & dst & Hpx & Hrun & _ & Hin).
  clear Hint.
  destruct (allocated_inv b Ha) as (px0 & Hpx0 & Hlen & Hw & Hh & Hf).
  assert (px0 = px) as -> by congruence.
  destruct (half_bounds _ Hh2) as (Hrh1 & _ & _).
  assert (Hcol : forall i p, zlookup px i = Some p -> p = colour).
  { intros i p Hi. pose proof (zlookup_range _ _ _ Hi) as Hr. rewrite Hlen in Hr.
    destruct (address_coordinates _ _ _ _ Hw Hh Hr) as (x & y & fr & Hx & Hy & Hfr & ->).
    specialize (Hall x y fr Hx Hy Hfr). unfold pixel, Begin in Hall.
    rewrite Hpx, mem_Some in Hall. congruence. }
  eexists. split; [exact Hrun|]. cbn [width height frames].
  intros x y frame c Hx Hy Hfr Hc.
  assert (Hr : 0 <= y + height b ÷ 2 * frame < height b ÷ 2 * frames b) by nia.
  destruct (Hin _ x Hr Hx) as (p' & pa & pb & pc & pd & Ep' & Epa & Epb & Epc & Epd & Havg).
  exists p'. unfold pixel, Begin. cbn [width height frames pixels]. rewrite mem_Some.
  split; [exact Ep'|].
  rewrite (Havg c Hc), (Hcol _ _ Epa), (Hcol _ _ Epb), (Hcol _ _ Epc), (Hcol _ _ Epd).
  pose proof (channel_range c colour).
  symmetry. apply Z.div_unique with 2; lia.
Qed.

(** The output depends only on the columns below [2 * (width / 2)]: two
    buffers of the same dimensions (width and height at least 2, size in
    bytes an [int]) that agree there shrink to buffers with the same
    bytes, so the last column of an odd width is ignored. *)
Theorem ShrinkToHalfSize_odd_column (b1 b2 : ImageBuffer) :
  allocated b1 = true -> allocated b2 = true ->
  Width b2 = Width b1 -> Height b2 = Height b1 -> Frames b2 = Frames b1 ->
  2 <= Width b1 -> 2 <= Height b1 ->
  4 * (Width b1 * Height b1 * Frames b1) <= INT_MAX ->
  (forall x y frame,
     0 <= x < 2 * (Width b1 ÷ 2) -> 0 <= y < Height b1 -> 0 <= frame < Frames b1 ->
     pixel b1 x y frame = pixel b2 x y frame) ->
  exists b1' b2',
    ShrinkToHalfSize b1 = Returned b1' /\ ShrinkToHalfSize b2 = Returned b2'
    /\ Width b2' = Width b1' /\ Height b2' = Height b1' /\ Frames b2' = Frames b1'
    /\ forall x y frame c,
         0 <= x < Width b1' -> 0 <= y < Height b1' -> 0 <= frame < Frames b1' ->
         0 <= c < 4 ->
         exists p1 p2,
           pixel b1' x y frame = Some p1 /\ pixel b2' x y frame = Some p2
           /\ channel c p1 = channel c p2.
Proof.
  unfold Width, Height, Frames. intros Ha1 Ha2 Ew Eh Ef Hw2 Hh2 Hint Hagree.
  assert (Hw2' : 2 <= width b2) by lia. assert (Hh2' : 2 <= height b2) by lia.
  assert (Hint' : 4 * (width b2 * height b2 * frames b2) <= INT_MAX)
    by (rewrite Ew, Eh, Ef; exact Hint).
  destruct (ShrinkToHalfSize_flat b1 Ha1 Hw2 Hh2 Hint)
    as (px1 & dst1 & Hpx1 & Hrun1 & _ & Hin1).
  destruct (ShrinkToHalfSize_flat b2 Ha2 Hw2' Hh2' Hint')
    as (px2 & dst2 & Hpx2 & Hrun2 & _ & Hin2).
  clear Hint Hint'.
  rewrite Ew, Eh, Ef in *.
  destruct (allocated_inv b1 Ha1) as (px0 & Hpx0 & Hlen & Hw & Hh & Hf).
  destruct (half_bounds _ Hw2) as (Hrw1 & Hrw2 & _).
  destruct (half_bounds _ Hh2) as (Hrh1 & Hrh2 & _).
  assert (Hsame : forall r k, 0 <= r < height b1 * frames b1 ->
                              0 <= k < 2 * (width b1 ÷ 2) ->
                              zlookup px1 (width b1 * r + k) = zlookup px2 (width b1 * r + k)).
  { intros r k Hr Hk.
    destruct (row_coordinates _ _ _ Hh Hr) as (y & fr & Hy & Hfr & ->).
    specialize (Hagree k y fr Hk Hy Hfr). unfold pixel, Begin in Hagree.
    rewrite Hpx1, Hpx2, !mem_Some, Ew, Eh in Hagree. exact Hagree. }
  eexists. eexists. split; [exact Hrun1|]. split; [exact Hrun2|]. cbn [width height frames].
  split; [reflexivity|]. split; [reflexivity|]. split; [reflexivity|].
  intros x y frame c Hx Hy Hfr Hc.
  assert (Hr : 0 <= y + height b1 ÷ 2 * frame < height b1 ÷ 2 * frames b1) by nia.
  destruct (Hin1 _ x Hr Hx) as (p1 & pa & pb & pc & pd & Ep1 & Epa & Epb & Epc & Epd & Havg1).
  destruct (Hin2 _ x Hr Hx) as (p2 & qa & qb & qc & qd & Ep2 & Eqa & Eqb & Eqc & Eqd & Havg2).
  set (r := y + height b1 ÷ 2 * frame) in *.
  assert (Hr2 : 0 <= 2 * r /\ 2 * r + 1 < height b1 * frames b1) by nia.
  rewrite <- Z.add_assoc in Epb, Epd, Eqb, Eqd.
  rewrite Hsame in Epa, Epb, Epc, Epd by lia.
  assert (pa = qa) as -> by congruence. assert (pb = qb) as -> by congruence.
  assert (pc = qc) as -> by congruence. assert (pd = qd) as -> by congruence.
  exists p1, p2. unfold pixel, Begin. cbn [width height frames pixels]. rewrite !mem_Some.
  split; [exact Ep1|]. split; [exact Ep2|].
  rewrite (Havg1 c Hc), (Havg2 c Hc). reflexivity.
Qed.

(** *** Using a buffer after Clear *)

(** [Clear] keeps the old dimensions while the array is gone, so on a
    cleared buffer that was allocated [Premultiply] reads through the null
    pointer, and so does [ShrinkToHalfSize] when the old width and height
    are at least 2 and the new frame count is positive: both are
    undefined behaviour. *)
Theorem Clear_then_use_undefined (b : ImageBuffer) (f : Z) :
  allocated b = true ->
  (forall frame blend, Premultiply (Clear f b) frame blend = Undefined)
  /\ (0 < f -> 2 <= Width b -> 2 <= Height b -> ShrinkToHalfSize (Clear f b) = Undefined).
Proof.
  intros Ha. destruct (allocated_inv b Ha) as (px & Hpx & Hlen & Hw & Hh & Hf).
  split.
  - intros frame blend. unfold Premultiply, Height, Clear. cbn [height pixels mem].
    destruct (Z.to_nat (height b)) as [|n] eqn:En; [lia|].
    cbn [premultiply_rows]. change (mem None) with (@nil Z).
    cbn [length premultiply_row]. unfold Width. cbn [width].
    destruct (decide _) as [Heq|_]; [lia|].
    rewrite load_outside by (simpl; lia). reflexivity.
  - unfold Width, Height. intros Hf' Hw2 Hh2.
    destruct (half_bounds _ Hw2) as (Hrw1 & Hrw2 & _).
    destruct (half_bounds _ Hh2) as (Hrh1 & _ & _).
    unfold ShrinkToHalfSize, Clear. cbn [width height frames pixels].
    set (rw := width b ÷ 2) in *. set (rh := height b ÷ 2) in *.
    unfold Allocate, ImageBuffer_new. cbn [pixels frames].
    rewrite bool_decide_eq_false_2 by (intros H; apply H; reflexivity).
    destruct (Z.eqb_spec rw 0); [lia|]. destruct (Z.eqb_spec rh 0); [lia|].
    destruct (Z.eqb_spec f 0); [lia|]. cbn [orb].
    unfold int_mul, int_add.
    destruct (int_result_cases (rw * rh)) as [[_ E]|E]; rewrite E; [|reflexivity].
    cbn [mbind outcome_bind].
    destruct (int_result_cases (rw * rh * f)) as [[_ E1]|E1]; rewrite E1; [|reflexivity].
    cbn [mbind outcome_bind].
    destruct (Z.ltb_spec (rw * rh * f) 0); [nia|].
    cbn [mbind outcome_bind width height frames pixels].
    destruct (int_result_cases (rh * f)) as [[_ E2]|E2]; rewrite E2; [|reflexivity].
    cbn [mbind outcome_bind].
    destruct (Z.to_nat (rh * f)) as [|rows] eqn:En; [nia|].
    cbn [shrink_rows]. unfold int_mul, int_add.
    destruct (int_result_cases (4 * width b)) as [[Hr4 E4]|E4]; rewrite E4; [|reflexivity].
    cbn [mbind outcome_bind]. unfold INT_MIN, INT_MAX in Hr4.
    rewrite (int_result_in (2 * 0)) by (unfold INT_MIN, INT_MAX; lia).
    cbn [mbind outcome_bind].
    rewrite (int_result_in (4 * width b * (2 * 0))) by (unfold INT_MIN, INT_MAX; lia).
    cbn [mbind outcome_bind].
    rewrite (int_result_in (4 * 2)) by (unfold INT_MIN, INT_MAX; lia).
    cbn [mbind outcome_bind].
    rewrite (int_result_in (4 * 2 * rw)) by (unfold INT_MIN, INT_MAX; lia).
    cbn [mbind outcome_bind].
    rewrite (int_result_in (2 * 0 + 1)) by (unfold INT_MIN, INT_MAX; lia).
    cbn [mbind outcome_bind].
    rewrite (int_result_in (4 * width b * (2 * 0 + 1))) by (unfold INT_MIN, INT_MAX; lia).
    cbn [mbind outcome_bind].
    change (mem None) with (@nil Z). cbn [length shrink_pixels].
    destruct (decide _) as [Heq|_]; [lia|].
    cbn [shrink_channels].
    rewrite (load8_outside [] (4 * width b * (2 * 0))) by (cbn [length]; lia).
    reflexivity.
Qed.

(** The box filter never leaves the range of its input (width and height
    at least 2, size in bytes an [int]): when byte [c] of every input
    pixel lies between [lo] and [hi], so does byte [c] of every output
    pixel. *)
Theorem ShrinkToHalfSize_between (b : ImageBuffer) (c lo hi : Z) :
  allocated b = true -> 2 <= Width b -> 2 <= Height b ->
  4 * (Width b * Height b * Frames b) <= INT_MAX -> 0 <= c < 4 ->
  (forall x y frame p,
     0 <= x < Width b -> 0 <= y < Height b -> 0 <= frame < Frames b ->
     pixel b x y frame = Some p -> lo <= channel c p <= hi) ->
  exists b',
    ShrinkToHalfSize b = Returned b'
    /\ forall x y frame,
         0 <= x < Width b' -> 0 <= y < Height b' -> 0 <= frame < Frames b' ->
         exists p', pixel b' x y frame = Some p' /\ lo <= channel c p' <= hi.
Proof.
  unfold Width, Height, Frames. intros Ha Hw2 Hh2 Hint Hc Hall.
  destruct (ShrinkToHalfSize_flat b Ha Hw2 Hh2 Hint) as (px & dst & Hpx & Hrun & _ & Hin).
  clear Hint.
  destruct (allocated_inv b Ha) as (px0 & Hpx0 & Hlen & Hw & Hh & Hf).
  assert (px0 = px) as -> by congruence.
  destruct (half_bounds _ Hh2) as (Hrh1 & _ & _).
  assert (Hrange : forall i p, zlookup px i = Some p -> lo <= channel c p <= hi).
  { intros i p Hi. pose proof (zlookup_range _ _ _ Hi) as Hr. rewrite Hlen in Hr.
    destruct (address_coordinates _ _ _ _ Hw Hh Hr) as (x & y & fr & Hx & Hy & Hfr & ->).
    apply (Hall x y fr p Hx Hy Hfr). unfold pixel, Begin. rewrite Hpx, mem_Some. exact Hi. }
  eexists. split; [exact Hrun|]. cbn [width height frames].
  intros x y frame Hx Hy Hfr.
  assert (Hr : 0 <= y + height b ÷ 2 * frame < height b ÷ 2 * frames b) by nia.
  destruct (Hin _ x Hr Hx) as (p' & pa & pb & pc & pd & Ep' & Epa & Epb & Epc & Epd & Havg).
  exists p'. unfold pixel, Begin. cbn [width height frames pixels]. rewrite mem_Some.
  split; [exact Ep'|]. rewrite (Havg c Hc).
  pose proof (Hrange _ _ Epa). pose proof (Hrange _ _ Epb).
  pose proof (Hrange _ _ Epc). pose proof (Hrange _ _ Epd).
  split.
  - apply Z.div_le_lower_bound; lia.
  - apply Z.lt_succ_r. apply Z.div_lt_upper_bound; lia.
Qed.

(** *** ShrinkToHalfSize: buffers beyond the range of int *)

Lemma shrink_rows_S (n : nat) (y : Z) (src : list Z) (w rw out : Z) (dst : list Z) :
  shrink_rows (S n) y src w rw out dst =
    width4 ← int_mul 4 w;
    y2 ← int_mul 2 y;
    aOff ← int_mul width4 y2;
    eight ← int_mul 4 2;
    rowBytes ← int_mul eight rw;
    y21 ← int_add y2 1;
    bOff ← int_mul width4 y21;
    '(out', dst') ← shrink_pixels (S (length src)) src aOff (aOff + rowBytes) bOff out dst;
    shrink_rows n (y + 1) src w rw out' dst'.
Proof. reflexivity. Qed.

(** When the byte offset [(4 * width) * (2 * y + 1)] of the last pass
    does not fit an [int], some offset of the loop overflows. *)
Lemma shrink_rows_overflow (src : list Z) (w rw : Z) (n : nat) :
  forall (y out : Z) (dst : list Z),
    0 <= y -> 0 <= rw -> 2 * rw <= w -> 0 < w ->
    w * (2 * (y + Z.of_nat (S n))) <= Z.of_nat (length src) ->
    out = 4 * rw * y ->
    4 * rw * (y + Z.of_nat (S n)) <= 4 * Z.of_nat (length dst) ->
    INT_MAX < 4 * w * (2 * (y + Z.of_nat (S n)) - 1) ->
    shrink_rows (S n) y src w rw out dst = Undefined.
Proof.
  induction n as [|n IH]; intros y out dst Hy Hrw Hw Hw0 Hsrc Hout Hdst Hover;
    rewrite shrink_rows_S; unfold int_mul, int_add.
  - destruct (int_result_cases (4 * w)) as [[_ E]|E]; rewrite E; [|reflexivity].
    cbn [mbind outcome_bind].
    destruct (int_result_cases (2 * y)) as [[_ E1]|E1]; rewrite E1; [|reflexivity].
    cbn [mbind outcome_bind].
    destruct (int_result_cases (4 * w * (2 * y))) as [[_ E2]|E2]; rewrite E2; [|reflexivity].
    cbn [mbind outcome_bind].
    destruct (int_result_cases (4 * 2)) as [[_ E3]|E3]; rewrite E3; [|reflexivity].
    cbn [mbind outcome_bind].
    destruct (int_result_cases (4 * 2 * rw)) as [[_ E4]|E4]; rewrite E4; [|reflexivity].
    cbn [mbind outcome_bind].
    destruct (int_result_cases (2 * y + 1)) as [[_ E5]|E5]; rewrite E5; [|reflexivity].
    cbn [mbind outcome_bind].
    destruct (int_result_cases (4 * w * (2 * y + 1))) as [[Hr E6]|E6]; rewrite E6;
      [|reflexivity].
    exfalso. replace (4 * w * (2 * (y + Z.of_nat 1) - 1)) with (4 * w * (2 * y + 1)) in Hover
      by (f_equal; lia). lia.
  - replace (y + Z.of_nat (S (S n))) with (y + 1 + Z.of_nat (S n)) in * by lia.
    destruct (int_result_cases (4 * w)) as [[_ E]|E]; rewrite E; [|reflexivity].
    cbn [mbind outcome_bind].
    destruct (int_result_cases (2 * y)) as [[_ E1]|E1]; rewrite E1; [|reflexivity].
    cbn [mbind outcome_bind].
    destruct (int_result_cases (4 * w * (2 * y))) as [[_ E2]|E2]; rewrite E2; [|reflexivity].
    cbn [mbind outcome_bind].
    destruct (int_result_cases (4 * 2)) as [[_ E3]|E3]; rewrite E3; [|reflexivity].
    cbn [mbind outcome_bind].
    destruct (int_result_cases (4 * 2 * rw)) as [[_ E4]|E4]; rewrite E4; [|reflexivity].
    cbn [mbind outcome_bind].
    destruct (int_result_cases (2 * y + 1)) as [[_ E5]|E5]; rewrite E5; [|reflexivity].
    cbn [mbind outcome_bind].
    destruct (int_result_cases (4 * w * (2 * y + 1))) as [[_ E6]|E6]; rewrite E6;
      [|reflexivity].
    cbn [mbind outcome_bind].
    assert (Hrow : w * (2 * y + 2) <= Z.of_nat (length src)) by nia.
    assert (Hrw' : 4 * rw * (y + 1) <= 4 * rw * (y + 1 + Z.of_nat (S n))) by nia.
    replace (4 * w * (2 * y) + 4 * 2 * rw)
      with (4 * w * (2 * y) + 8 * Z.of_nat (Z.to_nat rw)) by lia.
    destruct (shrink_pixels_spec src (Z.to_nat rw) (S (length src))
                (4 * w * (2 * y)) (4 * w * (2 * y + 1)) out dst)
      as (dst1 & Hpx & Hlen1 & _ & _); try nia.
    rewrite Hpx. cbn [mbind outcome_bind]. rewrite Z2Nat.id by lia.
    apply IH; try lia; try nia.
Qed.

(** A buffer so large that the byte offset of its last pair of source
    rows does not fit an [int]: the offset arithmetic of the loop
    overflows. *)
Lemma ShrinkToHalfSize_overflows (b : ImageBuffer) :
  allocated b = true -> 2 <= width b -> 2 <= height b ->
  INT_MAX < 4 * width b * (2 * ((height b ÷ 2) * frames b) - 1) ->
  ShrinkToHalfSize b = Undefined.
Proof.
  intros Ha Hw2 Hh2 Hover.
  destruct (allocated_inv b Ha) as (px & Hpx & Hlen & Hw & Hh & Hf).
  destruct (half_bounds _ Hw2) as (Hrw1 & Hrw2 & _).
  destruct (half_bounds _ Hh2) as (Hrh1 & Hrh2 & _).
  set (rw := width b ÷ 2) in *. set (rh := height b ÷ 2) in *.
  unfold ShrinkToHalfSize. fold rw rh.
  unfold Allocate, ImageBuffer_new. cbn [pixels frames].
  rewrite bool_decide_eq_false_2 by (intros H; apply H; reflexivity).
  destruct (Z.eqb_spec rw 0); [lia|]. destruct (Z.eqb_spec rh 0); [lia|].
  destruct (Z.eqb_spec (frames b) 0); [lia|]. cbn [orb].
  unfold int_mul, int_add.
  destruct (int_result_cases (rw * rh)) as [[_ E]|E]; rewrite E; [|reflexivity].
  cbn [mbind outcome_bind].
  destruct (int_result_cases (rw * rh * frames b)) as [[_ E1]|E1]; rewrite E1; [|reflexivity].
  cbn [mbind outcome_bind].
  destruct (Z.ltb_spec (rw * rh * frames b) 0); [nia|].
  cbn [mbind outcome_bind width height frames pixels].
  destruct (int_result_cases (rh * frames b)) as [[_ E2]|E2]; rewrite E2; [|reflexivity].
  cbn [mbind outcome_bind]. rewrite Hpx, !mem_Some.
  destruct (Z.to_nat (rh * frames b)) as [|rows] eqn:En; [nia|].
  assert (Hrows : Z.of_nat (S rows) = rh * frames b) by lia.
  rewrite shrink_rows_overflow; [reflexivity| | | | | | | |]; try lia.
  - rewrite Z.add_0_l, Hrows, Hlen.
    assert (2 * (rh * frames b) <= height b * frames b) by nia.
    rewrite <- Z.mul_assoc. apply Z.mul_le_mono_nonneg_l; lia.
  - rewrite Z.add_0_l, Hrows, length_map, length_seq. nia.
Qed.

(** On an allocated buffer of width and height at least 2 that is so
    large that the [int] byte offset [(4 * width) * (2 * y + 1)] of the
    last pass of the row loop exceeds [INT_MAX], [ShrinkToHalfSize] has
    undefined behaviour (signed overflow in the offset arithmetic), even
    though the number of pixels is an [int]. *)
Theorem ShrinkToHalfSize_beyond_int (b : ImageBuffer) :
  allocated b = true -> 2 <= Width b -> 2 <= Height b ->
  INT_MAX < 4 * Width b * (2 * ((Height b ÷ 2) * Frames b) - 1) ->
  ShrinkToHalfSize b = Undefined.
Proof.
  unfold Width, Height, Frames. intros Ha Hw2 Hh2 Hover.
  apply ShrinkToHalfSize_overflows; assumption.
Qed.

(** *** Read: a decoded frame in the buffer *)




(** [Read] in terms of the decoder it selects. *)
Lemma Read_decode (data : ImageFileData) (frame : Z) (b : ImageBuffer) :
  contains IMAGE_EXTENSIONS (extension data) = true ->
  Read data frame b =
    '(ok, b1) ← decode data b frame;
    if ok : bool then
      if premultiplies data
      then b2 ← Premultiply b1 frame (blendingMode data); Returned (true, b2)
      else Returned (true, b1)
    else Returned (false, b1).
Proof.
  intros Hext. unfold decode, Read, premultiplies. cbv zeta.
  assert (Hor : contains PNG_EXTENSIONS (extension data) = true
                \/ contains JPG_EXTENSIONS (extension data) = true).
  { unfold contains, IMAGE_EXTENSIONS in *.
    rewrite bool_decide_eq_true in Hext. rewrite !bool_decide_eq_true.
    apply elem_of_union in Hext. exact Hext. }
  destruct (contains PNG_EXTENSIONS (extension data)) eqn:Ep.
  - rewrite (png_not_jpg _ Ep).
    destruct (ReadPNG (path data) b frame) as [[[|] b1]| | |];
      try reflexivity; destruct (blendingMode data); reflexivity.
  - destruct Hor as [Hor|Hor]; [discriminate|]. rewrite Hor.
    cbn -[ReadJPG Premultiply].
    destruct (ReadJPG (path data) b frame) as [[[|] b1]| | |];
      try reflexivity; destruct (blendingMode data); reflexivity.
Qed.

Lemma decoded_supported (data : ImageFileData) w h image :
  decoded data = Some (w, h, image) ->
  contains IMAGE_EXTENSIONS (extension data) = true
  /\ decode data = fun b frame =>
       b0 ← allocate_for_decode w h b;
       if invalid_dimensions w h b0 then Returned (false, b0)
       else m ← write_rows (Z.to_nat h) 0 image w frame b0 (mem (pixels b0));
            Returned (true, with_pixels b0 m).
Proof.
  unfold decoded, decode. intros Hd.
  destruct (contains PNG_EXTENSIONS (extension data)) eqn:Ep.
  - split.
    { unfold contains, IMAGE_EXTENSIONS in *. rewrite bool_decide_eq_true in *.
      apply elem_of_union. left. exact Ep. }
    unfold ReadPNG.
    destruct (png_file (path data)) as [| |w' h' image' [k|]]; try discriminate.
    injection Hd as -> -> ->. reflexivity.
  - destruct (contains JPG_EXTENSIONS (extension data)) eqn:Ej; [|discriminate].
    split.
    { unfold contains, IMAGE_EXTENSIONS in *. rewrite bool_decide_eq_true in *.
      apply elem_of_union. right. exact Ej. }
    unfold ReadJPG.
    destruct (jpg_file (path data)) as [| |w' h' image']; try discriminate.
    injection Hd as -> -> ->. reflexivity.
Qed.

Lemma header_supported (data : ImageFileData) w h :
  header data = Some (w, h) ->
  contains IMAGE_EXTENSIONS (extension data) = true
  /\ forall b frame,
       (forall b0, allocate_for_decode w h b = Returned b0 ->
                   invalid_dimensions w h b0 = true ->
                   decode data b frame = Returned (false, b0))
       /\ (forall e, allocate_for_decode w h b = Thrown e ->
                     decode data b frame = Thrown e).
Proof.
  unfold header, decode. intros Hd.
  destruct (contains PNG_EXTENSIONS (extension data)) eqn:Ep.
  - split.
    { unfold contains, IMAGE_EXTENSIONS in *. rewrite bool_decide_eq_true in *.
      apply elem_of_union. left. exact Ep. }
    unfold ReadPNG.
    destruct (png_file (path data)) as [| |w' h' image' error]; try discriminate.
    injection Hd as -> ->. intros b frame. split.
    + intros b0 Hal Hinv. rewrite Hal. cbn [mbind outcome_bind]. rewrite Hinv. reflexivity.
    + intros e Hal. rewrite Hal. reflexivity.
  - destruct (contains JPG_EXTENSIONS (extension data)) eqn:Ej; [|discriminate].
    split.
    { unfold contains, IMAGE_EXTENSIONS in *. rewrite bool_decide_eq_true in *.
      apply elem_of_union. right. exact Ej. }
    unfold ReadJPG.
    destruct (jpg_file (path data)) as [| |w' h' image']; try discriminate.
    injection Hd as -> ->. intros b frame. split.
    + intros b0 Hal Hinv. rewrite Hal. cbn [mbind outcome_bind]. rewrite Hinv. reflexivity.
    + intros e Hal. rewrite Hal. reflexivity.
Qed.

Lemma allocate_for_decode_ready (w h : Z) (b : ImageBuffer) :
  0 < w -> 0 < h ->
  (pixels b = None /\ 0 < frames b /\ w * h * frames b <= INT_MAX)
  \/ (allocated b = true /\ w = width b /\ h = height b) ->
  exists b0,
    allocate_for_decode w h b = Returned b0
    /\ allocated b0 = true
    /\ width b0 = w /\ height b0 = h /\ frames b0 = frames b
    /\ invalid_dimensions w h b0 = false
    /\ (pixels b <> None -> b0 = b).
Proof.
  intros Hw Hh Hb.
  assert (Hvalid : forall b0, width b0 = w -> height b0 = h ->
                              invalid_dimensions w h b0 = false).
  { intros b0 <- <-. unfold invalid_dimensions, Width, Height.
    rewrite !Z.eqb_refl. destruct (Z.eqb_spec (width b0) 0); [lia|].
    destruct (Z.eqb_spec (height b0) 0); [lia|]. reflexivity. }
  destruct Hb as [(Hnone & Hf & Hmax)|(Ha & -> & ->)].
  - exists {| width := w; height := h; frames := frames b;
              pixels := Some (map junk (seq 0 (Z.to_nat (w * h * frames b)))) |}.
    split.
    { unfold allocate_for_decode. rewrite Allocate_unallocated by assumption.
      reflexivity. }
    split; [apply allocated_fresh; assumption|].
    split; [reflexivity|]. split; [reflexivity|]. split; [reflexivity|].
    split; [apply Hvalid; reflexivity|]. intros H. contradiction.
  - destruct (allocated_inv b Ha) as (px & Hpx & _).
    exists b. split.
    { apply allocate_for_decode_noop. rewrite Hpx. discriminate. }
    split; [exact Ha|]. split; [reflexivity|]. split; [reflexivity|].
    split; [reflexivity|]. split; [apply Hvalid; reflexivity|]. reflexivity.
Qed.




(** *** Read: files that are rejected *)

(** A PNG that cannot be opened or whose header libpng rejects, and a
    JPEG file without data: [Read] returns false and the buffer is the one
    it was given. *)
Theorem Read_no_image (data : ImageFileData) (frame : Z) (b : ImageBuffer) :
  (contains PNG_EXTENSIONS (extension data) = true
   /\ (png_file (path data) = PngUnreadable \/ png_file (path data) = PngBadHeader))
  \/ (contains JPG_EXTENSIONS (extension data) = true
      /\ jpg_file (path data) = JpgEmpty) ->
  Read data frame b = Returned (false, b).
Proof.
  intros [[Hp Hfile]|[Hj Hfile]].
  - rewrite Read_decode.
    2:{ unfold contains, IMAGE_EXTENSIONS in *. rewrite bool_decide_eq_true in *.
        apply elem_of_union. left. exact Hp. }
    unfold decode, ReadPNG. rewrite Hp. destruct Hfile as [-> | ->]; reflexivity.
  - rewrite Read_decode.
    2:{ unfold contains, IMAGE_EXTENSIONS in *. rewrite bool_decide_eq_true in *.
        apply elem_of_union. right. exact Hj. }
    unfold decode, ReadJPG.
    destruct (contains PNG_EXTENSIONS (extension data)) eqn:Ep.
    { rewrite (png_not_jpg _ Ep) in Hj. discriminate. }
    rewrite Hfile. reflexivity.
Qed.

(** A PNG or JPEG whose header has width 0 or height 0 is rejected
    whatever the state of the buffer: [Read] returns false, nothing is
    allocated and nothing is written. *)
Theorem Read_zero_dimension (data : ImageFileData) (frame : Z) (b : ImageBuffer) (w h : Z) :
  header data = Some (w, h) -> w = 0 \/ h = 0 ->
  Read data frame b = Returned (false, b).
Proof.
  intros Hh Hz. destruct (header_supported data w h Hh) as [Hext Hdec].
  destruct (Hdec b frame) as [Hfalse _].
  rewrite (Read_decode data frame b Hext), (Hfalse b); [reflexivity| |].
  - unfold allocate_for_decode. rewrite Allocate_noop by tauto. reflexivity.
  - unfold invalid_dimensions. destruct Hz as [-> | ->]; simpl;
      rewrite ?orb_true_r; reflexivity.
Qed.

(** On an unallocated buffer with a negative frame count the array size
    [w * h * Frames()], when it is computed without overflow, is negative:
    [new] throws [bad_array_new_length], a [bad_alloc], which the decoders
    catch, and [Read] leaves with a [runtime_error]. *)
Theorem Read_negative_frames (data : ImageFileData) (frame : Z) (b : ImageBuffer) (w h : Z) :
  header data = Some (w, h) -> 0 < w -> 0 < h ->
  Pixels b = None -> Frames b < 0 ->
  w * h <= INT_MAX -> INT_MIN <= w * h * Frames b ->
  Read data frame b = Thrown runtime_error.
Proof.
  unfold Pixels, Frames. intros Hh Hw Hhh Hnone Hf Hmax Hmin.
  destruct (header_supported data w h Hh) as [Hext Hdec].
  destruct (Hdec b frame) as [_ Hthrow].
  rewrite (Read_decode data frame b Hext), (Hthrow runtime_error); [reflexivity|].
  unfold allocate_for_decode, Allocate. rewrite Hnone.
  rewrite bool_decide_eq_false_2 by (intros H; apply H; reflexivity).
  destruct (Z.eqb_spec w 0); [lia|]. destruct (Z.eqb_spec h 0); [lia|].
  destruct (Z.eqb_spec (frames b) 0); [lia|]. cbn [orb].
  rewrite int_mul_in by (unfold INT_MIN, INT_MAX in *; nia). cbn [mbind outcome_bind].
  rewrite int_mul_in by (unfold INT_MIN, INT_MAX in *; nia). cbn [mbind outcome_bind].
  destruct (Z.ltb_spec (w * h * frames b) 0); [reflexivity|nia].
Qed.

(** [Read] does not check the frame index: decoding an image of the
    buffer's dimensions into a frame below 0 or not below [Frames()]
    writes outside the array, which is undefined behaviour. *)
Theorem Read_frame_out_of_range (data : ImageFileData) (frame : Z) (b : ImageBuffer)
    (image : Z -> Z -> Z) :
  allocated b = true ->
  decoded data = Some (Width b, Height b, image) ->
  frame < 0 \/ Frames b <= frame ->
  Read data frame b = Undefined.
Proof.
  unfold Width, Height, Frames. intros Ha Hd Hfr.
  destruct (allocated_inv b Ha) as (px & Hpx & Hlen & Hw & Hh & Hf).
  destruct (decoded_supported data _ _ image Hd) as [Hext Hdec].
  destruct (allocate_for_decode_ready (width b) (height b) b Hw Hh)
    as (b0 & Hal & _ & _ & _ & _ & Hval & Hsame); [right; auto|].
  assert (b0 = b) as -> by (apply Hsame; rewrite Hpx; discriminate).
  rewrite (Read_decode data frame b Hext), Hdec, Hal. cbn [mbind outcome_bind].
  rewrite Hval, Hpx, mem_Some.
  destruct (Z.to_nat (height b)) as [|n] eqn:En; [lia|]. cbn [write_rows].
  destruct (Z.to_nat (width b)) as [|k] eqn:Ek; [lia|]. cbn [write_pixels].
  unfold store. rewrite zlookup_None; [reflexivity|].
  unfold Begin. rewrite Hlen. destruct Hfr as [Hneg|Hbig].
  - assert (height b * frame + height b <= 0) by nia. nia.
  - assert (height b * frames b <= height b * frame) by nia.
    assert (width b * (height b * frames b) <= width b * (height b * frame)) by nia. nia.
Qed.

End ImageBuffer.

(** ** The theorems at sample inputs *)


Lemma Read_unsupported_extension_witness :
  extension small_gif <> ".png" /\ extension small_gif <> ".jpg"
  /\ extension small_gif <> ".jpeg" /\ extension small_gif <> ".jpe"
  /\ Read sample_junk sample_png sample_jpg small_gif 0 sample_2x2
     = Returned (false, sample_2x2).
Proof.
  assert (H1 : extension small_gif <> ".png") by discriminate.
  assert (H2 : extension small_gif <> ".jpg") by discriminate.
  assert (H3 : extension small_gif <> ".jpeg") by discriminate.
  assert (H4 : extension small_gif <> ".jpe") by discriminate.
  repeat (split; [assumption|]).
  exact (Read_unsupported_extension sample_junk sample_png sample_jpg
           small_gif 0 sample_2x2 H1 H2 H3 H4).
Defined.

Lemma Read_dimension_mismatch_witness :
  Pixels sample_2x2 <> None
  /\ header sample_png sample_jpg wide_png = Some (3, 2)
  /\ (3 <> Width sample_2x2 \/ 2 <> Height sample_2x2)
  /\ Read sample_junk sample_png sample_jpg wide_png 0 sample_2x2
     = Returned (false, sample_2x2).
Proof.
  assert (H1 : Pixels sample_2x2 <> None) by discriminate.
  assert (H2 : header sample_png sample_jpg wide_png = Some (3, 2)) by reflexivity.
  assert (H3 : 3 <> Width sample_2x2 \/ 2 <> Height sample_2x2) by (left; discriminate).
  repeat (split; [assumption|]).
  exact (Read_dimension_mismatch sample_junk sample_png sample_jpg
           wide_png 0 sample_2x2 3 2 H1 H2 H3).
Defined.

Lemma Read_premultiplies_witness :
  contains IMAGE_EXTENSIONS (extension small_png) = true
  /\ decode sample_junk sample_png sample_jpg small_png (ImageBuffer_new 1) 0
     = Returned (true, {| width := 2; height := 2; frames := 1;
                          pixels := Some [0x80000000; 0x80000010; 0x80000001; 0x80000011] |})
  /\ Read sample_junk sample_png sample_jpg small_png 0 (ImageBuffer_new 1)
     = Returned (true, {| width := 2; height := 2; frames := 1;
                          pixels := Some [0x80000000; 0x80000008; 0x80000000; 0x80000008] |}).
Proof.
  assert (H1 : contains IMAGE_EXTENSIONS (extension small_png) = true) by reflexivity.
  assert (H2 : decode sample_junk sample_png sample_jpg small_png (ImageBuffer_new 1) 0
     = Returned (true, {| width := 2; height := 2; frames := 1;
                          pixels := Some [0x80000000; 0x80000010; 0x80000001; 0x80000011] |}))
    by reflexivity.
  split; [exact H1|]. split; [exact H2|].
  rewrite (Read_premultiplies sample_junk sample_png sample_jpg small_png 0 _ _ H1 H2).
  reflexivity.
Defined.

Lemma Premultiply_colour_witness :
  allocated sample_2x2 = true /\ 0 <= 0 < Frames sample_2x2
  /\ 0 <= 1 < Width sample_2x2 /\ 0 <= 0 < Height sample_2x2
  /\ exists b' p p',
       Premultiply sample_2x2 0 HALF_ADDITIVE = Returned b'
       /\ pixel sample_2x2 1 0 0 = Some p /\ pixel b' 1 0 0 = Some p'
       /\ channel 2 p' = channel 2 p * channel 3 p / 255
       /\ channel 1 p' = channel 1 p * channel 3 p / 255
       /\ channel 0 p' = channel 0 p * channel 3 p / 255
       /\ 0 <= p' < 2 ^ 32.
Proof.
  assert (H1 : allocated sample_2x2 = true) by reflexivity.
  assert (H2 : 0 <= 0 < Frames sample_2x2) by (simpl; lia).
  assert (H3 : 0 <= 1 < Width sample_2x2) by (simpl; lia).
  assert (H4 : 0 <= 0 < Height sample_2x2) by (simpl; lia).
  repeat (split; [assumption|]).
  exact (Premultiply_colour sample_2x2 0 HALF_ADDITIVE 1 0 H1 H2 H3 H4).
Defined.

Lemma Premultiply_additive_alpha_witness :
  allocated sample_2x2 = true /\ 0 <= 0 < Frames sample_2x2
  /\ 0 <= 0 < Width sample_2x2 /\ 0 <= 1 < Height sample_2x2
  /\ exists p,
       pixel sample_2x2 0 1 0 = Some p
       /\ (exists b' p', Premultiply sample_2x2 0 ADDITIVE = Returned b'
             /\ pixel b' 0 1 0 = Some p' /\ channel 3 p' = 0)
       /\ (exists b' p', Premultiply sample_2x2 0 HALF_ADDITIVE = Returned b'
             /\ pixel b' 0 1 0 = Some p' /\ channel 3 p' = channel 3 p / 4).
Proof.
  assert (H1 : allocated sample_2x2 = true) by reflexivity.
  assert (H2 : 0 <= 0 < Frames sample_2x2) by (simpl; lia).
  assert (H3 : 0 <= 0 < Width sample_2x2) by (simpl; lia).
  assert (H4 : 0 <= 1 < Height sample_2x2) by (simpl; lia).
  repeat (split; [assumption|]).
  exact (Premultiply_additive_alpha sample_2x2 0 0 1 H1 H2 H3 H4).
Defined.

Lemma Premultiply_straight_witness :
  allocated sample_2x2 = true /\ 0 <= 0 < Frames sample_2x2
  /\ 0 <= 0 < Width sample_2x2 /\ 0 <= 0 < Height sample_2x2
  /\ ALPHA <> ADDITIVE /\ ALPHA <> HALF_ADDITIVE
  /\ exists b' p p',
       Premultiply sample_2x2 0 ALPHA = Returned b'
       /\ pixel sample_2x2 0 0 0 = Some p /\ pixel b' 0 0 0 = Some p'
       /\ channel 2 p' <= channel 2 p
       /\ channel 1 p' <= channel 1 p
       /\ channel 0 p' <= channel 0 p
       /\ channel 3 p' = channel 3 p.
Proof.
  assert (H1 : allocated sample_2x2 = true) by reflexivity.
  assert (H2 : 0 <= 0 < Frames sample_2x2) by (simpl; lia).
  assert (H3 : 0 <= 0 < Width sample_2x2) by (simpl; lia).
  assert (H4 : 0 <= 0 < Height sample_2x2) by (simpl; lia).
  assert (H5 : ALPHA <> ADDITIVE) by discriminate.
  assert (H6 : ALPHA <> HALF_ADDITIVE) by discriminate.
  repeat (split; [assumption|]).
  exact (Premultiply_straight sample_2x2 0 ALPHA 0 0 H1 H2 H3 H4 H5 H6).
Defined.

Lemma ShrinkToHalfSize_below_two_witness :
  allocated sample_1x4 = true
  /\ (Width sample_1x4 < 2 \/ Height sample_1x4 < 2)
  /\ exists b',
       ShrinkToHalfSize sample_junk sample_1x4 = Returned b'
       /\ Pixels b' = None /\ Width b' = 0 /\ Height b' = 0
       /\ Frames b' = Frames sample_1x4.
Proof.
  assert (H1 : allocated sample_1x4 = true) by reflexivity.
  assert (H2 : Width sample_1x4 < 2 \/ Height sample_1x4 < 2) by (left; simpl; lia).
  repeat (split; [assumption|]).
  exact (ShrinkToHalfSize_below_two sample_junk sample_1x4 H1 H2).
Defined.

Lemma ShrinkToHalfSize_average_witness :
  allocated sample_4x2x2 = true
  /\ 2 <= Width sample_4x2x2 /\ 2 <= Height sample_4x2x2
  /\ 4 * (Width sample_4x2x2 * Height sample_4x2x2 * Frames sample_4x2x2) <= INT_MAX
  /\ exists b',
       ShrinkToHalfSize sample_junk sample_4x2x2 = Returned b'
       /\ Width b' = Width sample_4x2x2 ÷ 2 /\ Height b' = Height sample_4x2x2 ÷ 2
       /\ Frames b' = Frames sample_4x2x2
       /\ allocated b' = true
       /\ forall x y frame c,
            0 <= x < Width b' -> 0 <= y < Height b' -> 0 <= frame < Frames b' ->
            0 <= c < 4 ->
            Z.even (Height sample_4x2x2) = true \/ frame = 0 ->
            exists p' pa pb pc pd,
              pixel b' x y frame = Some p'
              /\ pixel sample_4x2x2 (2 * x) (2 * y) frame = Some pa
              /\ pixel sample_4x2x2 (2 * x + 1) (2 * y) frame = Some pb
              /\ pixel sample_4x2x2 (2 * x) (2 * y + 1) frame = Some pc
              /\ pixel sample_4x2x2 (2 * x + 1) (2 * y + 1) frame = Some pd
              /\ channel c p'
                 = (channel c pa + channel c pb + channel c pc + channel c pd + 2) / 4.
Proof.
  assert (H1 : allocated sample_4x2x2 = true) by reflexivity.
  assert (H2 : 2 <= Width sample_4x2x2) by (simpl; lia).
  assert (H3 : 2 <= Height sample_4x2x2) by (simpl; lia).
  assert (H4 : 4 * (Width sample_4x2x2 * Height sample_4x2x2 * Frames sample_4x2x2)
               <= INT_MAX) by (unfold INT_MAX; simpl; lia).
  repeat (split; [assumption|]).
  exact (ShrinkToHalfSize_average sample_junk sample_4x2x2 H1 H2 H3 H4).
Defined.

(** ** Where the specification and the code part *)

Lemma sample_huge_allocated : allocated sample_huge = true.
Proof.
  unfold allocated, sample_huge. cbn [pixels width height frames].
  rewrite repeat_length, Z2Nat.id by lia. reflexivity.
Qed.

(** C1 as stated fails in three ways.  A 1 by 4 buffer becomes 0 by 0, not
    0 by 2.  In two frames of 2 by 3, output frame 1 is computed from
    source rows 2 and 3 of the concatenated frames, that is the last row
    of frame 0 and the first of frame 1: its pixel is 128 although all of
    frame 1 is 0.  And in a buffer of 32768 by 16386 pixels the [int] byte
    offset [(4 * width) * (2 * y)] of the last pass is 2^31: the call
    has undefined behaviour and produces no buffer. *)
Lemma ShrinkToHalfSize_average_counterexample :
  (allocated sample_1x4 = true
   /\ ShrinkToHalfSize sample_junk sample_1x4
      = Returned {| width := 0; height := 0; frames := 1; pixels := None |}
   /\ Height {| width := 0; height := 0; frames := 1; pixels := None |}
      <> Height sample_1x4 ÷ 2)
  /\ (allocated sample_2x3x2 = true
      /\ ShrinkToHalfSize sample_junk sample_2x3x2
         = Returned {| width := 1; height := 1; frames := 2; pixels := Some [0; 128] |}
      /\ pixel {| width := 1; height := 1; frames := 2; pixels := Some [0; 128] |} 0 0 1
         = Some 128
      /\ pixel sample_2x3x2 0 0 1 = Some 0 /\ pixel sample_2x3x2 1 0 1 = Some 0
      /\ pixel sample_2x3x2 0 1 1 = Some 0 /\ pixel sample_2x3x2 1 1 1 = Some 0
      /\ channel 0 128 <> (channel 0 0 + channel 0 0 + channel 0 0 + channel 0 0 + 2) / 4)
  /\ (allocated sample_huge = true
      /\ 2 <= Width sample_huge /\ 2 <= Height sample_huge
      /\ Width sample_huge * Height sample_huge * Frames sample_huge <= INT_MAX
      /\ ShrinkToHalfSize sample_junk sample_huge = Undefined).
Proof.
  split; [|split].
  - split; [reflexivity|]. split; [reflexivity|discriminate].
  - repeat (split; [reflexivity|]). discriminate.
  - split; [exact sample_huge_allocated|].
    unfold Width, Height, Frames, sample_huge. cbn [width height frames].
    split; [lia|]. split; [lia|]. split; [unfold INT_MAX; lia|].
    apply ShrinkToHalfSize_overflows.
    + exact sample_huge_allocated.
    + cbn [width]. lia.
    + cbn [height]. lia.
    + cbn [width height frames]. unfold INT_MAX.
      change (16386 ÷ 2) with 8193. lia.
Qed.


(** C7 as stated fails after [Clear] on an allocated buffer: the storage
    is gone and [Width()] and [Height()] still are 3 and 4. *)
Lemma Clear_keeps_dimensions_counterexample :
  Allocate sample_junk 3 4 (ImageBuffer_new 1) = Returned sample_3x4
  /\ Pixels (Clear 1 sample_3x4) = None
  /\ Width (Clear 1 sample_3x4) = 3
  /\ Height (Clear 1 sample_3x4) = 4
  /\ ~ (Width (Clear 1 sample_3x4) = 0 /\ Height (Clear 1 sample_3x4) = 0).
Proof.
  repeat (split; [reflexivity|]). intros [H _]. discriminate H.
Qed.

(** ** The further properties at sample inputs *)

Lemma Begin_addresses_pixels_witness :
  allocated sample_2x2 = true
  /\ (forall x y frame,
        0 <= x < Width sample_2x2 -> 0 <= y < Height sample_2x2 ->
        0 <= frame < Frames sample_2x2 ->
        exists p, pixel sample_2x2 x y frame = Some p)
  /\ (forall x y frame x' y' frame',
        0 <= x < Width sample_2x2 -> 0 <= y < Height sample_2x2 ->
        0 <= x' < Width sample_2x2 -> 0 <= y' < Height sample_2x2 ->
        Begin y frame sample_2x2 + x = Begin y' frame' sample_2x2 + x' ->
        x = x' /\ y = y' /\ frame = frame')
  /\ (forall i p,
        zlookup (mem (Pixels sample_2x2)) i = Some p ->
        exists x y frame,
          0 <= x < Width sample_2x2 /\ 0 <= y < Height sample_2x2
          /\ 0 <= frame < Frames sample_2x2
          /\ i = Begin y frame sample_2x2 + x).
Proof.
  assert (H1 : allocated sample_2x2 = true) by reflexivity.
  split; [exact H1|]. exact (Begin_addresses_pixels sample_2x2 H1).
Defined.


Lemma Premultiply_other_frames_witness :
  allocated sample_2x3x2 = true /\ 0 <= 0 < Frames sample_2x3x2
  /\ exists b',
       Premultiply sample_2x3x2 0 ALPHA = Returned b'
       /\ Width b' = Width sample_2x3x2 /\ Height b' = Height sample_2x3x2
       /\ Frames b' = Frames sample_2x3x2
       /\ forall x y frame',
            0 <= x < Width sample_2x3x2 -> 0 <= y < Height sample_2x3x2 -> frame' <> 0 ->
            pixel b' x y frame' = pixel sample_2x3x2 x y frame'.
Proof.
  assert (H1 : allocated sample_2x3x2 = true) by reflexivity.
  assert (H2 : 0 <= 0 < Frames sample_2x3x2) by (simpl; lia).
  repeat (split; [assumption|]).
  exact (Premultiply_other_frames sample_2x3x2 0 ALPHA H1 H2).
Defined.

Lemma Premultiply_opaque_witness :
  allocated sample_2x2 = true /\ 0 <= 0 < Frames sample_2x2
  /\ 0 <= 1 < Width sample_2x2 /\ 0 <= 0 < Height sample_2x2
  /\ ALPHA <> ADDITIVE /\ ALPHA <> HALF_ADDITIVE
  /\ pixel sample_2x2 1 0 0 = Some 0xFF102030
  /\ 0 <= 0xFF102030 < 2 ^ 32 /\ channel 3 0xFF102030 = 255
  /\ exists b', Premultiply sample_2x2 0 ALPHA = Returned b'
                /\ pixel b' 1 0 0 = Some 0xFF102030.
Proof.
  assert (H1 : allocated sample_2x2 = true) by reflexivity.
  assert (H2 : 0 <= 0 < Frames sample_2x2) by (simpl; lia).
  assert (H3 : 0 <= 1 < Width sample_2x2) by (simpl; lia).
  assert (H4 : 0 <= 0 < Height sample_2x2) by (simpl; lia).
  assert (H5 : ALPHA <> ADDITIVE) by discriminate.
  assert (H6 : ALPHA <> HALF_ADDITIVE) by discriminate.
  assert (H7 : pixel sample_2x2 1 0 0 = Some 0xFF102030) by reflexivity.
  assert (H8 : 0 <= 0xFF102030 < 2 ^ 32) by (simpl; lia).
  assert (H9 : channel 3 0xFF102030 = 255) by reflexivity.
  repeat (split; [assumption|]).
  exact (Premultiply_opaque sample_2x2 0 ALPHA 1 0 _ H1 H2 H3 H4 H5 H6 H7 H8 H9).
Defined.

Lemma Premultiply_transparent_witness :
  allocated sample_2x2 = true /\ 0 <= 0 < Frames sample_2x2
  /\ 0 <= 0 < Width sample_2x2 /\ 0 <= 1 < Height sample_2x2
  /\ pixel sample_2x2 0 1 0 = Some 0x00FFFFFF /\ channel 3 0x00FFFFFF = 0
  /\ exists b', Premultiply sample_2x2 0 HALF_ADDITIVE = Returned b'
                /\ pixel b' 0 1 0 = Some 0.
Proof.
  assert (H1 : allocated sample_2x2 = true) by reflexivity.
  assert (H2 : 0 <= 0 < Frames sample_2x2) by (simpl; lia).
  assert (H3 : 0 <= 0 < Width sample_2x2) by (simpl; lia).
  assert (H4 : 0 <= 1 < Height sample_2x2) by (simpl; lia).
  assert (H5 : pixel sample_2x2 0 1 0 = Some 0x00FFFFFF) by reflexivity.
  assert (H6 : channel 3 0x00FFFFFF = 0) by reflexivity.
  repeat (split; [assumption|]).
  exact (Premultiply_transparent sample_2x2 0 HALF_ADDITIVE 0 1 _ H1 H2 H3 H4 H5 H6).
Defined.

Lemma Premultiply_additive_opaque_witness :
  allocated sample_2x2 = true /\ 0 <= 0 < Frames sample_2x2
  /\ 0 <= 1 < Width sample_2x2 /\ 0 <= 0 < Height sample_2x2
  /\ pixel sample_2x2 1 0 0 = Some 0xFF102030 /\ channel 3 0xFF102030 = 255
  /\ exists b',
       Premultiply sample_2x2 0 ADDITIVE = Returned b'
       /\ pixel b' 1 0 0 = Some (Z.land 0xFF102030 0xFFFFFF).
Proof.
  assert (H1 : allocated sample_2x2 = true) by reflexivity.
  assert (H2 : 0 <= 0 < Frames sample_2x2) by (simpl; lia).
  assert (H3 : 0 <= 1 < Width sample_2x2) by (simpl; lia).
  assert (H4 : 0 <= 0 < Height sample_2x2) by (simpl; lia).
  assert (H5 : pixel sample_2x2 1 0 0 = Some 0xFF102030) by reflexivity.
  assert (H6 : channel 3 0xFF102030 = 255) by reflexivity.
  repeat (split; [assumption|]).
  exact (Premultiply_additive_opaque sample_2x2 0 1 0 _ H1 H2 H3 H4 H5 H6).
Defined.

Lemma ShrinkToHalfSize_rows_witness :
  allocated sample_2x3x2 = true
  /\ 2 <= Width sample_2x3x2 /\ 2 <= Height sample_2x3x2
  /\ 4 * (Width sample_2x3x2 * Height sample_2x3x2 * Frames sample_2x3x2) <= INT_MAX
  /\ exists b',
       ShrinkToHalfSize sample_junk sample_2x3x2 = Returned b'
       /\ forall x y frame,
            0 <= x < Width b' -> 0 <= y < Height b' -> 0 <= frame < Frames b' ->
            exists p' pa pb pc pd,
              pixel b' x y frame = Some p'
              /\ pixel sample_2x3x2 (2 * x) (2 * (y + Height b' * frame)) 0 = Some pa
              /\ pixel sample_2x3x2 (2 * x + 1) (2 * (y + Height b' * frame)) 0 = Some pb
              /\ pixel sample_2x3x2 (2 * x) (2 * (y + Height b' * frame) + 1) 0 = Some pc
              /\ pixel sample_2x3x2 (2 * x + 1) (2 * (y + Height b' * frame) + 1) 0 = Some pd
              /\ forall c, 0 <= c < 4 ->
                   channel c p'
                   = (channel c pa + channel c pb + channel c pc + channel c pd + 2) / 4.
Proof.
  assert (H1 : allocated sample_2x3x2 = true) by reflexivity.
  assert (H2 : 2 <= Width sample_2x3x2) by (simpl; lia).
  assert (H3 : 2 <= Height sample_2x3x2) by (simpl; lia).
  assert (H4 : 4 * (Width sample_2x3x2 * Height sample_2x3x2 * Frames sample_2x3x2)
               <= INT_MAX) by (unfold INT_MAX; simpl; lia).
  repeat (split; [assumption|]).
  exact (ShrinkToHalfSize_rows sample_junk sample_2x3x2 H1 H2 H3 H4).
Defined.

Lemma ShrinkToHalfSize_uniform_witness :
  allocated sample_uniform = true
  /\ 2 <= Width sample_uniform /\ 2 <= Height sample_uniform
  /\ 4 * (Width sample_uniform * Height sample_uniform * Frames sample_uniform) <= INT_MAX
  /\ (forall x y frame,
        0 <= x < Width sample_uniform -> 0 <= y < Height sample_uniform ->
        0 <= frame < Frames sample_uniform ->
        pixel sample_uniform x y frame = Some 0x80402010)
  /\ exists b',
       ShrinkToHalfSize sample_junk sample_uniform = Returned b'
       /\ forall x y frame c,
            0 <= x < Width b' -> 0 <= y < Height b' -> 0 <= frame < Frames b' ->
            0 <= c < 4 ->
            exists p', pixel b' x y frame = Some p' /\ channel c p' = channel c 0x80402010.
Proof.
  assert (H1 : allocated sample_uniform = true) by reflexivity.
  assert (H2 : 2 <= Width sample_uniform) by (simpl; lia).
  assert (H3 : 2 <= Height sample_uniform) by (simpl; lia).
  assert (Hi : 4 * (Width sample_uniform * Height sample_uniform * Frames sample_uniform)
               <= INT_MAX) by (unfold INT_MAX; simpl; lia).
  assert (H4 : forall x y frame,
             0 <= x < Width sample_uniform -> 0 <= y < Height sample_uniform ->
             0 <= frame < Frames sample_uniform ->
             pixel sample_uniform x y frame = Some 0x80402010).
  { simpl. intros x y frame Hx Hy Hf.
    assert (x = 0 \/ x = 1) as [-> | ->] by lia;
      assert (y = 0 \/ y = 1 \/ y = 2) as [-> | [-> | ->]] by lia;
      assert (frame = 0 \/ frame = 1) as [-> | ->] by lia; reflexivity. }
  repeat (split; [assumption|]).
  exact (ShrinkToHalfSize_uniform sample_junk sample_uniform _ H1 H2 H3 Hi H4).
Defined.

Lemma ShrinkToHalfSize_odd_column_witness :
  allocated sample_3x2 = true /\ allocated sample_3x2' = true
  /\ Width sample_3x2' = Width sample_3x2 /\ Height sample_3x2' = Height sample_3x2
  /\ Frames sample_3x2' = Frames sample_3x2
  /\ 2 <= Width sample_3x2 /\ 2 <= Height sample_3x2
  /\ 4 * (Width sample_3x2 * Height sample_3x2 * Frames sample_3x2) <= INT_MAX
  /\ (forall x y frame,
        0 <= x < 2 * (Width sample_3x2 ÷ 2) -> 0 <= y < Height sample_3x2 ->
        0 <= frame < Frames sample_3x2 ->
        pixel sample_3x2 x y frame = pixel sample_3x2' x y frame)
  /\ exists b1' b2',
       ShrinkToHalfSize sample_junk sample_3x2 = Returned b1'
       /\ ShrinkToHalfSize sample_junk sample_3x2' = Returned b2'
       /\ Width b2' = Width b1' /\ Height b2' = Height b1' /\ Frames b2' = Frames b1'
       /\ forall x y frame c,
            0 <= x < Width b1' -> 0 <= y < Height b1' -> 0 <= frame < Frames b1' ->
            0 <= c < 4 ->
            exists p1 p2,
              pixel b1' x y frame = Some p1 /\ pixel b2' x y frame = Some p2
              /\ channel c p1 = channel c p2.
Proof.
  assert (H1 : allocated sample_3x2 = true) by reflexivity.
  assert (H2 : allocated sample_3x2' = true) by reflexivity.
  assert (H3 : Width sample_3x2' = Width sample_3x2) by reflexivity.
  assert (H4 : Height sample_3x2' = Height sample_3x2) by reflexivity.
  assert (H5 : Frames sample_3x2' = Frames sample_3x2) by reflexivity.
  assert (H6 : 2 <= Width sample_3x2) by (simpl; lia).
  assert (H7 : 2 <= Height sample_3x2) by (simpl; lia).
  assert (Hi : 4 * (Width sample_3x2 * Height sample_3x2 * Frames sample_3x2) <= INT_MAX)
    by (unfold INT_MAX; simpl; lia).
  assert (H8 : forall x y frame,
             0 <= x < 2 * (Width sample_3x2 ÷ 2) -> 0 <= y < Height sample_3x2 ->
             0 <= frame < Frames sample_3x2 ->
             pixel sample_3x2 x y frame = pixel sample_3x2' x y frame).
  { change (2 * (Width sample_3x2 ÷ 2)) with 2. simpl. intros x y frame Hx Hy Hf.
    assert (x = 0 \/ x = 1) as [-> | ->] by lia;
      assert (y = 0 \/ y = 1) as [-> | ->] by lia;
      assert (frame = 0) as -> by lia; reflexivity. }
  repeat (split; [assumption|]).
  exact (ShrinkToHalfSize_odd_column sample_junk sample_3x2 sample_3x2'
           H1 H2 H3 H4 H5 H6 H7 Hi H8).
Defined.

Lemma Clear_then_use_undefined_witness :
  allocated sample_2x2 = true
  /\ (forall frame blend, Premultiply (Clear 1 sample_2x2) frame blend = Undefined)
  /\ (0 < 1 -> 2 <= Width sample_2x2 -> 2 <= Height sample_2x2 ->
      ShrinkToHalfSize sample_junk (Clear 1 sample_2x2) = Undefined).
Proof.
  assert (H1 : allocated sample_2x2 = true) by reflexivity.
  split; [exact H1|]. exact (Clear_then_use_undefined sample_junk sample_2x2 1 H1).
Defined.



Lemma Read_no_image_witness :
  ((contains PNG_EXTENSIONS (extension missing_png) = true
    /\ (sample_png (path missing_png) = PngUnreadable
        \/ sample_png (path missing_png) = PngBadHeader))
   \/ (contains JPG_EXTENSIONS (extension missing_png) = true
       /\ sample_jpg (path missing_png) = JpgEmpty))
  /\ Read sample_junk sample_png sample_jpg missing_png 0 sample_2x2
     = Returned (false, sample_2x2).
Proof.
  assert (H1 : (contains PNG_EXTENSIONS (extension missing_png) = true
                /\ (sample_png (path missing_png) = PngUnreadable
                    \/ sample_png (path missing_png) = PngBadHeader))
               \/ (contains JPG_EXTENSIONS (extension missing_png) = true
                   /\ sample_jpg (path missing_png) = JpgEmpty)).
  { left. split; [reflexivity|]. left. reflexivity. }
  split; [exact H1|].
  exact (Read_no_image sample_junk sample_png sample_jpg missing_png 0 sample_2x2 H1).
Defined.

Lemma Read_zero_dimension_witness :
  header zero_png sample_jpg small_png = Some (0, 5)
  /\ (0 = 0 \/ 5 = 0)
  /\ Read sample_junk zero_png sample_jpg small_png 0 (ImageBuffer_new 1)
     = Returned (false, ImageBuffer_new 1).
Proof.
  assert (H1 : header zero_png sample_jpg small_png = Some (0, 5)) by reflexivity.
  assert (H2 : 0 = 0 \/ 5 = 0) by (left; reflexivity).
  split; [exact H1|]. split; [exact H2|].
  exact (Read_zero_dimension sample_junk zero_png sample_jpg small_png 0
           (ImageBuffer_new 1) 0 5 H1 H2).
Defined.

Lemma Read_negative_frames_witness :
  header sample_png sample_jpg small_png = Some (2, 2)
  /\ 0 < 2 /\ 0 < 2
  /\ Pixels (ImageBuffer_new (-1)) = None /\ Frames (ImageBuffer_new (-1)) < 0
  /\ 2 * 2 <= INT_MAX /\ INT_MIN <= 2 * 2 * Frames (ImageBuffer_new (-1))
  /\ Read sample_junk sample_png sample_jpg small_png 0 (ImageBuffer_new (-1))
     = Thrown runtime_error.
Proof.
  assert (H1 : header sample_png sample_jpg small_png = Some (2, 2)) by reflexivity.
  assert (H2 : 0 < 2) by lia.
  assert (H3 : Pixels (ImageBuffer_new (-1)) = None) by reflexivity.
  assert (H4 : Frames (ImageBuffer_new (-1)) < 0) by (simpl; lia).
  assert (H5 : 2 * 2 <= INT_MAX) by (unfold INT_MAX; lia).
  assert (H6 : INT_MIN <= 2 * 2 * Frames (ImageBuffer_new (-1)))
    by (unfold INT_MIN; simpl; lia).
  split; [exact H1|]. split; [exact H2|]. split; [exact H2|].
  split; [exact H3|]. split; [exact H4|]. split; [exact H5|]. split; [exact H6|].
  exact (Read_negative_frames sample_junk sample_png sample_jpg small_png 0
           (ImageBuffer_new (-1)) 2 2 H1 H2 H2 H3 H4 H5 H6).
Defined.

Lemma Read_frame_out_of_range_witness :
  allocated sample_2x2 = true
  /\ decoded sample_png sample_jpg small_png
     = Some (Width sample_2x2, Height sample_2x2, fun x y => 0x80000000 + 16 * x + y)
  /\ (1 < 0 \/ Frames sample_2x2 <= 1)
  /\ Read sample_junk sample_png sample_jpg small_png 1 sample_2x2 = Undefined.
Proof.
  assert (H1 : allocated sample_2x2 = true) by reflexivity.
  assert (H2 : decoded sample_png sample_jpg small_png
               = Some (Width sample_2x2, Height sample_2x2,
                       fun x y => 0x80000000 + 16 * x + y)) by reflexivity.
  assert (H3 : 1 < 0 \/ Frames sample_2x2 <= 1) by (right; simpl; lia).
  split; [exact H1|]. split; [exact H2|]. split; [exact H3|].
  exact (Read_frame_out_of_range sample_junk sample_png sample_jpg small_png 1
           sample_2x2 _ H1 H2 H3).
Defined.

Lemma ShrinkToHalfSize_between_witness :
  allocated sample_4x2x2 = true
  /\ 2 <= Width sample_4x2x2 /\ 2 <= Height sample_4x2x2
  /\ 4 * (Width sample_4x2x2 * Height sample_4x2x2 * Frames sample_4x2x2) <= INT_MAX
  /\ 0 <= 0 < 4
  /\ (forall x y frame p,
        0 <= x < Width sample_4x2x2 -> 0 <= y < Height sample_4x2x2 ->
        0 <= frame < Frames sample_4x2x2 ->
        pixel sample_4x2x2 x y frame = Some p -> 16 <= channel 0 p <= 46)
  /\ exists b',
       ShrinkToHalfSize sample_junk sample_4x2x2 = Returned b'
       /\ forall x y frame,
            0 <= x < Width b' -> 0 <= y < Height b' -> 0 <= frame < Frames b' ->
            exists p', pixel b' x y frame = Some p' /\ 16 <= channel 0 p' <= 46.
Proof.
  assert (H1 : allocated sample_4x2x2 = true) by reflexivity.
  assert (H2 : 2 <= Width sample_4x2x2) by (simpl; lia).
  assert (H3 : 2 <= Height sample_4x2x2) by (simpl; lia).
  assert (Hi : 4 * (Width sample_4x2x2 * Height sample_4x2x2 * Frames sample_4x2x2)
               <= INT_MAX) by (unfold INT_MAX; simpl; lia).
  assert (H4 : 0 <= 0 < 4) by lia.
  assert (H5 : forall x y frame p,
             0 <= x < Width sample_4x2x2 -> 0 <= y < Height sample_4x2x2 ->
             0 <= frame < Frames sample_4x2x2 ->
             pixel sample_4x2x2 x y frame = Some p -> 16 <= channel 0 p <= 46).
  { simpl. intros x y frame p Hx Hy Hf.
    assert (x = 0 \/ x = 1 \/ x = 2 \/ x = 3) as [-> | [-> | [-> | ->]]] by lia;
      assert (y = 0 \/ y = 1) as [-> | ->] by lia;
      assert (frame = 0 \/ frame = 1) as [-> | ->] by lia;
      intros [= <-]; vm_compute; split; discriminate. }
  repeat (split; [assumption|]).
  exact (ShrinkToHalfSize_between sample_junk sample_4x2x2 0 16 46 H1 H2 H3 Hi H4 H5).
Defined.

Lemma ShrinkToHalfSize_beyond_int_witness :
  allocated sample_huge = true
  /\ 2 <= Width sample_huge /\ 2 <= Height sample_huge
  /\ INT_MAX < 4 * Width sample_huge * (2 * ((Height sample_huge ÷ 2) * Frames sample_huge) - 1)
  /\ ShrinkToHalfSize sample_junk sample_huge = Undefined.
Proof.
  assert (H1 : allocated sample_huge = true) by exact sample_huge_allocated.
  assert (H2 : 2 <= Width sample_huge)
    by (unfold Width, sample_huge; cbn [width]; lia).
  assert (H3 : 2 <= Height sample_huge)
    by (unfold Height, sample_huge; cbn [height]; lia).
  assert (H4 : INT_MAX < 4 * Width sample_huge
                         * (2 * ((Height sample_huge ÷ 2) * Frames sample_huge) - 1)).
  { unfold Width, Height, Frames, sample_huge, INT_MAX. cbn [width height frames].
    change (16386 ÷ 2) with 8193. lia. }
  split; [exact H1|]. split; [exact H2|]. split; [exact H3|]. split; [exact H4|].
  exact (ShrinkToHalfSize_beyond_int sample_junk sample_huge H1 H2 H3 H4).
Defined.
